(** * clawd-wallet: spend limits, MCP payment tool, TAP registry client, balance checker

    A shallow embedding of the TypeScript sources
      - [src/mcp-server/tools.ts]  ([MCPTools.paymentRequest]),
      - [src/tap/registry.ts]      ([TAPRegistry]),
      - [src/wallet/balance.ts]    ([BalanceChecker]),
    together with the collaborators they call ([SpendLimits], the TAP keychain
    and credential store), and the properties of the specification stated and
    proved over it.

    Conventions.
      - A JavaScript [number] is an IEEE-754 binary64 value: Rocq's primitive
        [float].  Comparisons are the IEEE ones (every comparison with NaN is
        false), truthiness is "neither zero nor NaN".
      - An [async] function is a computation that either resolves with a value
        or rejects with an exception; state is threaded explicitly.
      - Everything outside the process (registry, RPC node, random source,
        clock) is an oracle passed as a section variable. *)

From Stdlib Require Import Floats.PrimFloat Bool List String Ascii ZArith Lia.
Import ListNotations.
Local Open Scope list_scope.
Local Open Scope string_scope.

(* Decimal literals such as [0.1] denote the nearest binary64 value, as in
   JavaScript. *)
#[local] Set Warnings "-inexact-float".

(* ===================================================================== *)
(** ** JavaScript values and asynchronous computations *)
(* ===================================================================== *)

Module JS.

(** [number]: a binary64 float. *)
Definition number : Type := float.

(** [Boolean(x)] for a number: false exactly for [+0], [-0] and [NaN]. *)
Definition truthy (x : number) : bool :=
  negb (PrimFloat.eqb x 0%float || negb (PrimFloat.eqb x x)).

(** [Boolean(x)] for an optional number ([undefined] is falsy). *)
Definition truthy_opt (x : option number) : bool :=
  match x with
  | Some a => truthy a
  | None => false
  end.

(** [Boolean(s)] for a string: false exactly for the empty string. *)
Definition truthy_string (s : string) : bool :=
  match s with
  | EmptyString => false
  | String _ _ => true
  end.

(** [x || y] on optional strings ([undefined] and [""] are falsy). *)
Definition or_else (x : option string) (y : string) : string :=
  match x with
  | Some s => if truthy_string s then s else y
  | None => y
  end.

(** [a >= b] on numbers. *)
Definition geb (a b : number) : bool := PrimFloat.leb b a.

(** [a > b] on numbers. *)
Definition gtb (a b : number) : bool := PrimFloat.ltb b a.

(** Exceptions: the three constructors of [Error] objects the code meets.
    [message] is what [(error as Error).message] reads. *)
Inductive Exn : Type :=
| Error (message : string)
| TypeError (message : string)
| SyntaxError (message : string).

Definition message (e : Exn) : string :=
  match e with
  | Error m | TypeError m | SyntaxError m => m
  end.

(** The settled state of a promise. *)
Inductive Promise (A : Type) : Type :=
| Resolved (value : A)
| Rejected (reason : Exn).
Arguments Resolved {A} value.
Arguments Rejected {A} reason.

Definition is_resolved {A} (p : Promise A) : bool :=
  match p with
  | Resolved _ => true
  | Rejected _ => false
  end.

(** [Array.prototype.join]. *)
Fixpoint join (sep : string) (l : list string) : string :=
  match l with
  | [] => ""
  | [x] => x
  | x :: rest => x ++ sep ++ join sep rest
  end.

(** [String.prototype.toLowerCase] on strings of ASCII characters (code
    units below 128), where it maps [A]..[Z] to [a]..[z] and nothing else;
    beyond them the JavaScript function follows the Unicode case mapping,
    which this definition does not. *)
Definition lower_ascii (c : ascii) : ascii :=
  let n := nat_of_ascii c in
  if (65 <=? n)%nat && (n <=? 90)%nat then ascii_of_nat (n + 32) else c.

Fixpoint toLowerCase (s : string) : string :=
  match s with
  | EmptyString => EmptyString
  | String c rest => String (lower_ascii c) (toLowerCase rest)
  end.



End JS.
Import JS.

(** Asynchronous code over a mutable world [S]: run from a state, it settles
    (resolved or rejected) and leaves a state. *)
Module Async.

Definition M (S A : Type) : Type := S -> Promise A * S.

Definition ret {S A} (a : A) : M S A := fun s => (Resolved a, s).

Definition throw {S A} (e : Exn) : M S A := fun s => (Rejected e, s).

(** [await m; k]: a rejection of [m] propagates. *)
Definition bind {S A B} (m : M S A) (k : A -> M S B) : M S B :=
  fun s =>
    match m s with
    | (Resolved a, s') => k a s'
    | (Rejected e, s') => (Rejected e, s')
    end.

(** [try { m } catch (error) { handler error }]: state changes made before the
    throw are kept. *)
Definition try_catch {S A} (m : M S A) (handler : Exn -> M S A) : M S A :=
  fun s =>
    match m s with
    | (Resolved a, s') => (Resolved a, s')
    | (Rejected e, s') => handler e s'
    end.

(** Awaiting an already settled promise. *)
Definition await {S A} (p : Promise A) : M S A := fun s => (p, s).

Definition modify {S} (f : S -> S) : M S unit := fun s => (Resolved tt, f s).

End Async.
Import Async.

Declare Scope async_scope.
Delimit Scope async_scope with async.
Notation "x <- m ;; k" := (bind m (fun x => k))
  (at level 61, m at next level, right associativity) : async_scope.
Notation "m ;; k" := (bind m (fun _ => k))
  (at level 61, right associativity) : async_scope.
Local Open Scope async_scope.

(* ===================================================================== *)
(** ** Spend-limit validator ([security/limits.ts]) *)
(* ===================================================================== *)

Module SpendLimits.

Local Open Scope float_scope.

(** Status of a spend-ledger entry. *)
Inductive EntryStatus : Type := pending | approved | rejected | failed.

Definition is_approved (s : EntryStatus) : bool :=
  match s with
  | approved => true
  | _ => false
  end.

(** A spend-ledger entry; [timestamp] in milliseconds since the epoch. *)
Record LedgerEntry : Type := {
  timestamp : Z;
  amount : number;
  status : EntryStatus;
  service : string
}.

(** The [security] block of [~/.clawd/config.json]. *)
Record SecurityConfig : Type := {
  maxTransactionAmount : number;
  autoApproveUnder : number;
  dailyLimit : number
}.

Record ValidationResult : Type := {
  valid : bool;
  errors : list string;
  autoApprove : bool
}.

(** The rolling window: 24 hours, in milliseconds. *)
Definition WINDOW_MS : Z := 24 * 60 * 60 * 1000.

(** The entry's timestamp falls within the 24 hours ending at [now]. *)
Definition in_window (now : Z) (e : LedgerEntry) : bool :=
  ((now - WINDOW_MS <=? timestamp e) && (timestamp e <=? now))%Z.

Definition counts (now : Z) (e : LedgerEntry) : bool :=
  is_approved (status e) && in_window now e.

(** Modelled from the spec: the daily cumulative spend of
    [security/limits.ts] (section 3, invariants; section 4.4): a running
    total over the ledger, adding the amount of each approved entry of the
    rolling window. *)
Fixpoint dailyTotal_from (total : number) (now : Z) (ledger : list LedgerEntry) : number :=
  match ledger with
  | [] => total
  | e :: rest =>
      if counts now e
      then dailyTotal_from (total + amount e) now rest
      else dailyTotal_from total now rest
  end.

Definition dailyTotal (now : Z) (ledger : list LedgerEntry) : number :=
  dailyTotal_from 0 now ledger.

(** Modelled from the spec: [SpendLimits.validateTransaction] of
    [security/limits.ts] (section 4.4).  The positivity check rejects at
    once; the two configured limits are checked together and their messages
    accumulate; the result signals auto-approval for a valid amount at or
    under the threshold (section 8). *)
Definition validateTransaction (cfg : SecurityConfig) (ledger : list LedgerEntry)
    (now : Z) (a : number) : ValidationResult :=
  if a <=? 0 then
    {| valid := false; errors := ["amount must be positive"%string]; autoApprove := false |}
  else
    let over_max :=
      if gtb a (maxTransactionAmount cfg)
      then ["exceeds per-transaction limit"%string] else [] in
    let over_day :=
      if gtb (dailyTotal now ledger + a) (dailyLimit cfg)
      then ["would exceed daily limit"%string] else [] in
    let errs := (over_max ++ over_day)%list in
    let ok := match errs with [] => true | _ :: _ => false end in
    {| valid := ok; errors := errs; autoApprove := ok && (a <=? autoApproveUnder cfg) |}.

End SpendLimits.

(* ===================================================================== *)
(** ** The payment tool ([mcp-server/tools.ts]) *)
(* ===================================================================== *)

Module MCPTools.

Import SpendLimits.

(** [PaymentRequest] of [types/index.ts]: the tool's arguments;
    [maxAmount] and [body] are optional. *)
Record PaymentRequest : Type := {
  url : string;
  method : string;
  description : string;
  maxAmount : option number;
  body : option string
}.

(** What [paymentRequest] does besides computing, in order. *)
Inductive Effect : Type :=
| ValidateTransaction (amount : number)
| NewPaymentHandler
| Initialize
| ExecutePayment (url method : string) (body : option string) (description : string).

(** The tool's answer: the failure object [{success: false, error}] or
    whatever [handler.executePayment] returned. *)
Inductive ToolResult (PaymentResult : Type) : Type :=
| Failure (error : string)
| Returned (result : PaymentResult).
Arguments Failure {PaymentResult} error.
Arguments Returned {PaymentResult} result.

Section PaymentRequest.

(** [SpendLimits.validateTransaction] as the tool sees it: an awaited call. *)
Variable validateTransaction : number -> Promise ValidationResult.

(** The payment handler of [x402/payment.ts]: what [initialize] and
    [executePayment] settle to.  Every network request of a payment is issued
    inside [executePayment]. *)
Variable PaymentResult : Type.
Variable initialize : Promise unit.
Variable executePayment : string -> string -> option string -> string -> Promise PaymentResult.

Definition T : Type -> Type := M (list Effect).

Definition emit (e : Effect) : T unit := modify (fun log => (log ++ [e])%list).

(** [new PaymentHandler(); await handler.initialize();
     return await handler.executePayment(url, method, body, description)]. *)
Definition execute (args : PaymentRequest) : T (ToolResult PaymentResult) :=
  emit NewPaymentHandler ;;
  emit Initialize ;;
  await initialize ;;
  emit (ExecutePayment (url args) (method args) (body args) (description args)) ;;
  result <- await (executePayment (url args) (method args) (body args) (description args)) ;;
  ret (Returned result).

(** [MCPTools.paymentRequest]. *)
Definition paymentRequest (args : PaymentRequest) : T (ToolResult PaymentResult) :=
  try_catch
    (match maxAmount args with
     | Some a =>
         if truthy a then
           emit (ValidateTransaction a) ;;
           validation <- await (validateTransaction a) ;;
           if negb (valid validation)
           then ret (Failure (join ", " (errors validation)))
           else execute args
         else execute args
     | None => execute args
     end)
    (fun error => ret (Failure (message error))).

(** The outcome of paying, spelled out: the handler is built, initialized and
    asked to execute the payment; a failure of either step becomes a failure
    result. *)
Definition pays (args : PaymentRequest) (log : list Effect)
    : Promise (ToolResult PaymentResult) * list Effect :=
  match initialize with
  | Rejected e =>
      (Resolved (Failure (message e)), log ++ [NewPaymentHandler; Initialize])%list
  | Resolved _ =>
      let sent := ExecutePayment (url args) (method args) (body args) (description args) in
      match executePayment (url args) (method args) (body args) (description args) with
      | Resolved result =>
          (Resolved (Returned result), log ++ [NewPaymentHandler; Initialize; sent])%list
      | Rejected e =>
          (Resolved (Failure (message e)), log ++ [NewPaymentHandler; Initialize; sent])%list
      end
  end.

End PaymentRequest.

End MCPTools.

(* ===================================================================== *)
(** ** JSON values as JavaScript reads them *)
(* ===================================================================== *)

Module JSON.

#[local] Set Warnings "-register-all".

(** A value produced by [JSON.parse]. *)
Inductive Value : Type :=
| VNull
| VBool (b : bool)
| VNumber (n : number)
| VString (s : string)
| VArray (items : list Value)
| VObject (fields : list (string * Value)).

(** [Boolean(v)]: [null], [false], [0], [NaN] and [""] are falsy; every array
    and object is truthy. *)
Definition truthy_value (v : Value) : bool :=
  match v with
  | VNull => false
  | VBool b => b
  | VNumber n => truthy n
  | VString s => truthy_string s
  | VArray _ => true
  | VObject _ => true
  end.

(** [String(v)], as [new Error(v)] applies it: an array joins the strings of
    its items with commas ([null] items give nothing), a plain object gives
    ["[object Object]"]; [show] is [Number.prototype.toString]. *)
Fixpoint js_string (show : number -> string) (v : Value) {struct v} : string :=
  match v with
  | VNull => "null"
  | VBool true => "true"
  | VBool false => "false"
  | VNumber n => show n
  | VString s => s
  | VArray items =>
      join ","
        (map (fun item => match item with
                          | VNull => ""
                          | _ => js_string show item
                          end) items)
  | VObject _ => "[object Object]"
  end.

(** [x || fallback], for [x] a JSON value or [undefined]. *)
Definition or_fallback (x : option Value) (fallback : string) : Value :=
  match x with
  | Some v => if truthy_value v then v else VString fallback
  | None => VString fallback
  end.

End JSON.
Import JSON.

(** A string is a JSON value. *)
Coercion JSON.VString : string >-> JSON.Value.

(* ===================================================================== *)
(** ** TAP registry client ([tap/registry.ts]) *)
(* ===================================================================== *)

Module TAP.

(** Modelled from the spec: [TAPIdentityLevel] of [tap/types.ts]
    (section 3: the closed set of identity levels). *)
Inductive TAPIdentityLevel : Type := none | email | kyc | kyb.

(** The level as it is interpolated into a URL. *)
Definition level_string (l : TAPIdentityLevel) : string :=
  match l with
  | none => "none"
  | email => "email"
  | kyc => "kyc"
  | kyb => "kyb"
  end.

(** The agent identity handed to [TAPCredentialManager.saveAgent]. *)
Record TAPAgent : Type := {
  agentId : string;
  keyId : string;
  publicKey : string;
  registeredAt : string
}.

(** What the credential store keeps for the agent: the identity and the three
    further arguments of [saveAgent]. *)
Record StoredAgent : Type := {
  identity : TAPAgent;
  walletAddress : string;
  agentName : string;
  agentRegistryUrl : string
}.

(** [TAPAttestation]: timestamps are the registry's ISO-8601 strings. *)
Record TAPAttestation : Type := {
  identityLevel : TAPIdentityLevel;
  attestationJwt : string;
  issuedAt : string;
  expiresAt : string;
  issuer : string
}.

(** [TAPVerificationResult]: tagged by its [status] field.  The [error] is
    declared a string; it holds whatever value the client put there. *)
Inductive TAPVerificationResult : Type :=
| failed (error : Value)
| verified (agentId : string) (identityLevel : TAPIdentityLevel) (reputationScore : number).

(** The value [registerAgent] resolves with. *)
Record Registration : Type := {
  reg_agentId : string;
  reg_verificationUrl : string;
  reg_keyId : string;
  reg_publicKey : string
}.

(** The value [verifyAgent] resolves with. *)
Record Verification : Type := {
  valid : bool;
  ver_identityLevel : option TAPIdentityLevel;
  ver_reputationScore : option number;
  ver_error : option string
}.

(** The value [getReputation] resolves with when it is not [null]. *)
Record Reputation : Type := {
  totalTransactions : number;
  uniqueMerchants : number;
  disputeRate : number;
  reputationScore : number
}.

(** *** Registry wire format *)

(** [TAPRegistrationResponse]: [{agent: {id, keys: [{key_id}]}, verification_url}]. *)
Record TAPRegistrationResponse : Type := {
  agent_id : string;
  agent_keys : list string;
  verification_url : string
}.

(** [VerifyDemoResponse]: [{agent: {identity: {level, attestation_jwt, issued_at, expires_at}}}]. *)
Record VerifyDemoResponse : Type := {
  level : TAPIdentityLevel;
  attestation_jwt : string;
  issued_at : string;
  expires_at : string
}.

(** [VerifyResponse]: [{valid, error?, identity_level?, reputation?: {reputation_score?}}]. *)
Record VerifyResponse : Type := {
  resp_valid : bool;
  resp_error : option string;
  identity_level : option TAPIdentityLevel;
  reputation : option (option number)
}.

(** A parsed response body: the value [null], an error object with any JSON
    value as its [detail] (or none), or an object of one of the shapes the
    client casts the body to.  [JError None] is the object [{}], and stands
    for every body that has none of the properties the client reads (a
    number, a string or an array at the top level behave the same). *)
Inductive Json : Type :=
| JChallenge (challenge : string) (message : string)
| JRegistration (r : TAPRegistrationResponse)
| JVerifyDemo (r : VerifyDemoResponse)
| JVerify (r : VerifyResponse)
| JError (detail : option Value)
| JNull.

(** A [fetch] response: [ok] is "status in 200..299"; [json] is what
    [response.json()] settles to (it rejects on an unparsable body). *)
Record Response : Type := {
  ok : bool;
  statusText : string;
  json : Promise Json
}.

Inductive RequestBody : Type :=
| NoBody
| ChallengeBody (wallet_address : string) (chain_id : Z)
| RegisterWalletBody (wallet_address name public_key algorithm
                      wallet_signature wallet_message : string)
| VerifyBody (wallet_address attestation : string).

Record Request : Type := {
  req_url : string;
  req_method : string;
  req_body : RequestBody
}.

(** Effects of the client, in the order they happen. *)
Inductive Event : Type :=
| KeychainSave (privateKeyHex : string)
| Fetch (request : Request)
| SaveAgent (stored : StoredAgent)
| SaveAttestation (attestation : TAPAttestation).

(** The mutable world of the client: the keychain slot of the TAP signing
    key, the two records of the credential store, the number of private keys
    drawn from the random source, and the effects so far. *)
Record World : Type := {
  keychain : option string;
  agentFile : option StoredAgent;
  attestationFile : option TAPAttestation;
  drawn : nat;
  trace : list Event
}.

Definition log (e : Event) (w : World) : World :=
  {| keychain := keychain w; agentFile := agentFile w;
     attestationFile := attestationFile w; drawn := drawn w;
     trace := (trace w ++ [e])%list |}.

Definition T : Type -> Type := M World.

Definition CHAIN_ID : Z := 8453.

(** [`eip155:${CHAIN_ID}:${walletAddress.toLowerCase()}`]. *)
Definition caip10 (walletAddress : string) : string :=
  "eip155:8453:" ++ toLowerCase walletAddress.

(** [Buffer.from(bytes).toString('hex')]. *)
Definition hex_digit (n : N) : ascii :=
  match String.get (N.to_nat n) "0123456789abcdef" with
  | Some c => c
  | None => "0"%char
  end.

Definition hex_of_byte (b : Byte.byte) : string :=
  let n := Byte.to_N b in
  String (hex_digit (n / 16)) (String (hex_digit (n mod 16)) EmptyString).

Fixpoint toHex (bytes : list Byte.byte) : string :=
  match bytes with
  | [] => ""
  | b :: rest => hex_of_byte b ++ toHex rest
  end.




(** Modelled from the spec: [TAPKeychain.savePrivateKey] of
    [tap/keychain.ts] (section 6, secure key store: [put(name, bytes)]); the
    slot of the TAP signing key is overwritten. *)
Definition savePrivateKey (privateKeyHex : string) : T unit :=
  modify (fun w =>
    log (KeychainSave privateKeyHex)
      {| keychain := Some privateKeyHex; agentFile := agentFile w;
         attestationFile := attestationFile w; drawn := drawn w;
         trace := trace w |}).

(** Modelled from the spec: [TAPCredentialManager] of [tap/credentials.ts]
    (section 4.2, credential store): [saveAgent] and [saveAttestation]
    replace the agent record and the attestation record; [loadAgent] and
    [loadAttestation] read them. *)
Definition saveAgent (a : TAPAgent) (walletAddress name registryUrl : string) : T unit :=
  let stored := {| identity := a; walletAddress := walletAddress;
                   agentName := name; agentRegistryUrl := registryUrl |} in
  modify (fun w =>
    log (SaveAgent stored)
      {| keychain := keychain w; agentFile := Some stored;
         attestationFile := attestationFile w; drawn := drawn w;
         trace := trace w |}).

Definition saveAttestation (att : TAPAttestation) : T unit :=
  modify (fun w =>
    log (SaveAttestation att)
      {| keychain := keychain w; agentFile := agentFile w;
         attestationFile := Some att; drawn := drawn w;
         trace := trace w |}).

Definition loadAgent : T (option StoredAgent) :=
  fun w => (Resolved (agentFile w), w).

Definition loadAttestation : T (option TAPAttestation) :=
  fun w => (Resolved (attestationFile w), w).

(** The [TypeError] of reading a property of [undefined], and of [null]. *)
Definition reading (property : string) : Exn :=
  TypeError ("Cannot read properties of undefined (reading '" ++ property ++ "')").

Definition reading_null (property : string) : Exn :=
  TypeError ("Cannot read properties of null (reading '" ++ property ++ "')").

(** [error.detail] of a body cast to [{detail?: string}]: the detail, whatever
    JSON value it is; [undefined] on a body without one; a throw on [null]. *)
Definition detail_of (j : Json) : Promise (option Value) :=
  match j with
  | JError d => Resolved d
  | JNull => Rejected (reading_null "detail")
  | _ => Resolved None
  end.

(** [(await response.json().catch(() => ({}))).detail]. *)
Definition error_detail (r : Response) : Promise (option Value) :=
  match json r with
  | Resolved j => detail_of j
  | Rejected _ => Resolved None
  end.

(** The [message] property of a body read as [{challenge, message}]. *)
Definition message_of (j : Json) : option string :=
  match j with
  | JChallenge _ m => Some m
  | _ => None
  end.

(** [const { message } = body]: destructuring [null] throws. *)
Definition destructure_message (j : Json) : Promise (option string) :=
  match j with
  | JNull =>
      Rejected (TypeError "Cannot destructure property 'message' of '(intermediate value)' as it is null.")
  | _ => Resolved (message_of j)
  end.

(** [data.agent.id], [data.agent.keys[0].key_id] and [data.verification_url]
    of a body read as [TAPRegistrationResponse]. *)
Definition registration_of (j : Json) : Promise (string * string * string) :=
  match j with
  | JRegistration r =>
      match agent_keys r with
      | key_id :: _ => Resolved (agent_id r, key_id, verification_url r)
      | [] => Rejected (reading "key_id")
      end
  | JVerifyDemo _ => Rejected (reading "0")
  | JNull => Rejected (reading_null "agent")
  | _ => Rejected (reading "id")
  end.

(** [data.agent.identity] of a body read as [VerifyDemoResponse]. *)
Definition identity_of (j : Json) : Promise VerifyDemoResponse :=
  match j with
  | JVerifyDemo r => Resolved r
  | JRegistration _ => Rejected (reading "level")
  | JNull => Rejected (reading_null "agent")
  | _ => Rejected (reading "identity")
  end.

(** A body read as [VerifyResponse]: absent properties are [undefined]
    ([data.valid] is then falsy); reading [data.valid] of [null] throws. *)
Definition verify_of (j : Json) : Promise VerifyResponse :=
  match j with
  | JVerify r => Resolved r
  | JNull => Rejected (reading_null "valid")
  | _ => Resolved {| resp_valid := false; resp_error := None;
                     identity_level := None; reputation := None |}
  end.

(** [data.reputation?.reputation_score]. *)
Definition reputation_score (r : VerifyResponse) : option number :=
  match reputation r with
  | Some s => s
  | None => None
  end.

End TAP.

Module TAPRegistry.

Import TAP.

Section Client.

(** [this.registryUrl]. *)
Variable registryUrl : string.

(** [ed.utils.randomPrivateKey()]: the [n]-th private key the random source
    yields, and [ed.getPublicKeyAsync]. *)
Variable randomPrivateKey : nat -> list Byte.byte.
Variable getPublicKey : list Byte.byte -> list Byte.byte.

(** [Buffer.from(bytes).toString('base64')]. *)
Variable toBase64 : list Byte.byte -> string.

(** The network: what [fetch(request)] settles to, given the effects so far.
    A rejection is a transport failure. *)
Variable fetch : list Event -> Request -> Promise Response.

(** [new ethers.Wallet(privateKey).signMessage(message)]. *)
Variable signMessage : string -> string -> Promise string.

(** [new Date().toISOString()], given the effects so far. *)
Variable now : list Event -> string.

(** [Number.prototype.toString], for a number that ends up in a message. *)
Variable numberToString : number -> string.

(** [await fetch(url, init)]. *)
Definition request (r : Request) : T Response :=
  fun w => (fetch (trace w) r, log (Fetch r) w).

(** [TAPRegistry.generateKeyPair]. *)
Definition generateKeyPair : T (list Byte.byte * string) :=
  fun w =>
    let privateKey := randomPrivateKey (drawn w) in
    let publicKey := getPublicKey privateKey in
    (Resolved (privateKey, toBase64 publicKey),
     {| keychain := keychain w; agentFile := agentFile w;
        attestationFile := attestationFile w; drawn := S (drawn w);
        trace := trace w |}).

Definition challengeRequest (walletAddress : string) : Request :=
  {| req_url := registryUrl ++ "/v1/challenge";
     req_method := "POST";
     req_body := ChallengeBody (caip10 walletAddress) CHAIN_ID |}.

(** [TAPRegistry.getChallenge]: resolves with the parsed body. *)
Definition getChallenge (walletAddress : string) : T Json :=
  response <- request (challengeRequest walletAddress) ;;
  if negb (ok response)
  then throw (Error ("Failed to get challenge: " ++ statusText response))
  else await (json response).

Definition registerRequest (walletAddress name publicKey walletSignature siweMessage : string)
    : Request :=
  {| req_url := registryUrl ++ "/v1/agents/register-wallet";
     req_method := "POST";
     req_body := RegisterWalletBody (caip10 walletAddress) name publicKey "ed25519"
                   walletSignature siweMessage |}.

(** Signing the challenge with the wallet; an [undefined] message makes
    [signMessage] throw on reading its length. *)
Definition sign (walletPrivateKey : string) (siweMessage : option string) : Promise string :=
  match siweMessage with
  | Some m => signMessage walletPrivateKey m
  | None => Rejected (reading "length")
  end.

(** The private key a call to [registerAgent] draws in world [w], and the
    public key it sends and returns. *)
Definition drawn_key (w : World) : list Byte.byte := randomPrivateKey (drawn w).

Definition drawn_public (w : World) : string := toBase64 (getPublicKey (drawn_key w)).

(** The world once that key has been generated and put in the keychain. *)
Definition key_saved (w : World) : World :=
  {| keychain := Some (toHex (drawn_key w));
     agentFile := agentFile w;
     attestationFile := attestationFile w;
     drawn := S (drawn w);
     trace := (trace w ++ [KeychainSave (toHex (drawn_key w))])%list |}.

(** The agent record a successful registration stores. *)
Definition stored_agent (r : Registration) (walletAddress name registeredAt : string)
    : StoredAgent :=
  {| identity := {| agentId := reg_agentId r; keyId := reg_keyId r;
                    publicKey := reg_publicKey r; registeredAt := registeredAt |};
     walletAddress := caip10 walletAddress;
     agentName := name;
     agentRegistryUrl := registryUrl |}.

(** [TAPRegistry.registerAgent]. *)
Definition registerAgent (walletAddress walletPrivateKey name : string) : T Registration :=
  pair <- generateKeyPair ;;
  let privateKey := fst pair in
  let publicKey := snd pair in
  savePrivateKey (toHex privateKey) ;;
  let caip10Address := caip10 walletAddress in
  challenge <- getChallenge walletAddress ;;
  siweMessage <- await (destructure_message challenge) ;;
  walletSignature <- await (sign walletPrivateKey siweMessage) ;;
  response <- request (registerRequest walletAddress name publicKey walletSignature
                         (match siweMessage with Some m => m | None => "" end)) ;;
  if negb (ok response) then
    detail <- await (error_detail response) ;;
    throw (Error (js_string numberToString
                    (or_fallback detail ("Registration failed: " ++ statusText response))))
  else
    data <- await (json response) ;;
    fields <- await (registration_of data) ;;
    let '(id, key_id, verificationUrl) := fields in
    timestamp <- (fun w => (Resolved (now (trace w)), w)) ;;
    saveAgent {| agentId := id; keyId := key_id; publicKey := publicKey;
                 registeredAt := timestamp |}
              caip10Address name registryUrl ;;
    ret {| reg_agentId := id; reg_verificationUrl := verificationUrl;
           reg_keyId := key_id; reg_publicKey := publicKey |}.

Definition verifyDemoRequest (agentId : string) (level : TAPIdentityLevel) : Request :=
  {| req_url := registryUrl ++ "/v1/agents/" ++ agentId ++ "/verify-demo?level="
                  ++ level_string level;
     req_method := "POST";
     req_body := NoBody |}.

(** The attestation built from the registry's answer. *)
Definition attestation_of (r : VerifyDemoResponse) : TAPAttestation :=
  {| identityLevel := level r;
     attestationJwt := attestation_jwt r;
     issuedAt := issued_at r;
     expiresAt := expires_at r;
     issuer := registryUrl |}.

(** The registry accepts a completion when it answers 2xx with a body that
    carries the issued identity. *)
Definition accepted (answer : Promise Response) : option VerifyDemoResponse :=
  match answer with
  | Resolved response =>
      if ok response then
        match json response with
        | Resolved (JVerifyDemo r) => Some r
        | _ => None
        end
      else None
  | Rejected _ => None
  end.

(** [TAPRegistry.completeVerificationDemo]. *)
Definition completeVerificationDemo (agentId : string) (level : TAPIdentityLevel)
    : T TAPVerificationResult :=
  response <- request (verifyDemoRequest agentId level) ;;
  if negb (ok response) then
    detail <- await (error_detail response) ;;
    ret (failed (or_fallback detail "Verification failed"))
  else
    data <- await (json response) ;;
    identity <- await (identity_of data) ;;
    saveAttestation (attestation_of identity) ;;
    ret (verified agentId (TAP.level identity) 50%float).

Definition verifyRequest (walletAddress attestation : string) : Request :=
  {| req_url := registryUrl ++ "/v1/verify";
     req_method := "POST";
     req_body := VerifyBody walletAddress attestation |}.

(** [TAPRegistry.verifyAgent]. *)
Definition verifyAgent (walletAddress attestation : string) : T Verification :=
  response <- request (verifyRequest walletAddress attestation) ;;
  if negb (ok response) then
    ret {| valid := false; ver_identityLevel := None; ver_reputationScore := None;
           ver_error := Some ("Verification failed: " ++ statusText response) |}
  else
    body <- await (json response) ;;
    data <- await (verify_of body) ;;
    if negb (resp_valid data) then
      ret {| valid := false; ver_identityLevel := None; ver_reputationScore := None;
             ver_error := resp_error data |}
    else
      ret {| valid := true; ver_identityLevel := identity_level data;
             ver_reputationScore := reputation_score data; ver_error := None |}.

(** [result.reputationScore || 0]. *)
Definition score_or_zero (s : option number) : number :=
  match s with
  | Some x => if truthy x then x else 0%float
  | None => 0%float
  end.

(** [TAPRegistry.getReputation]; [None] is [null]. *)
Definition getReputation (agentId : string) : T (option Reputation) :=
  try_catch
    (agent <- loadAgent ;;
     attestation <- loadAttestation ;;
     match agent, attestation with
     | Some a, Some att =>
         result <- verifyAgent (walletAddress a) (attestationJwt att) ;;
         if negb (valid result) then ret None
         else ret (Some {| totalTransactions := 0%float; uniqueMerchants := 0%float;
                           disputeRate := 0%float;
                           reputationScore := score_or_zero (ver_reputationScore result) |})
     | _, _ => ret None
     end)
    (fun _ => ret None).

End Client.

End TAPRegistry.

(* ===================================================================== *)
(** ** Balance checker ([wallet/balance.ts]) *)
(* ===================================================================== *)

Module BalanceChecker.

(** [BalanceInfo] of [types/index.ts]; [decimals] is [Number(decimals)] of
    the contract's [uint8]. *)
Record BalanceInfo : Type := {
  address : string;
  balance : string;
  decimals : Z;
  symbol : string
}.

(** Calls to the USDC contract through the RPC provider. *)
Inductive Call : Type :=
| BalanceOf (owner : string)
| Decimals
| Symbol.

Section Checker.

(** What each contract call settles to, given the calls made so far; a
    rejection is an unreachable or failing RPC endpoint. *)
Variable balanceOf : list Call -> string -> Promise Z.
Variable decimalsOf : list Call -> Promise Z.
Variable symbolOf : list Call -> Promise string.

(** [ethers.formatUnits] (it throws on arguments it cannot format) and the
    global [parseFloat]. *)
Variable formatUnits : Z -> Z -> Promise string.
Variable parseFloat : string -> number.

Definition T : Type -> Type := M (list Call).

Definition call {A} (c : Call) (answer : list Call -> Promise A) : T A :=
  fun calls => (answer calls, (calls ++ [c])%list).

(** [BalanceChecker.getBalance]. *)
Definition getBalance (address : string) : T BalanceInfo :=
  try_catch
    (balance <- call (BalanceOf address) (fun calls => balanceOf calls address) ;;
     decimals <- call Decimals decimalsOf ;;
     symbol <- call Symbol symbolOf ;;
     formattedBalance <- await (formatUnits balance decimals) ;;
     ret {| address := address; balance := formattedBalance;
            decimals := decimals; symbol := symbol |})
    (fun error => throw (Error ("Failed to fetch balance: " ++ message error))).

(** [BalanceChecker.hasSufficientBalance]. *)
Definition hasSufficientBalance (address : string) (requiredAmount : number) : T bool :=
  try_catch
    (balance <- getBalance address ;;
     ret (geb (parseFloat (BalanceChecker.balance balance)) requiredAmount))
    (fun error => ret false).

End Checker.

End BalanceChecker.

(* ===================================================================== *)
(** ** More JavaScript string operations *)
(* ===================================================================== *)

Module JSString.

(** [String.prototype.includes]. *)
Fixpoint includes (needle s : string) : bool :=
  String.prefix needle s
  || match s with
     | EmptyString => false
     | String _ rest => includes needle rest
     end.

(** [String.prototype.toUpperCase] on the ASCII range. *)
Definition upper_ascii (c : ascii) : ascii :=
  let n := nat_of_ascii c in
  if (97 <=? n)%nat && (n <=? 122)%nat then ascii_of_nat (n - 32) else c.

Fixpoint toUpperCase (s : string) : string :=
  match s with
  | EmptyString => EmptyString
  | String c rest => String (upper_ascii c) (toUpperCase rest)
  end.

(** [s.slice(0, n)]. *)
Definition slice0 (n : nat) (s : string) : string := String.substring 0 n s.

(** [Boolean(x)] for an optional string. *)
Definition truthy_opt_string (x : option string) : bool :=
  match x with
  | Some s => truthy_string s
  | None => false
  end.

End JSString.
Import JSString.

(* ===================================================================== *)
(** ** USDC transfer ([wallet/balance.ts], [BalanceChecker.transferUSDC]) *)
(* ===================================================================== *)

Module BalanceCheckerTransfer.

(** What [transferUSDC] resolves with. *)
Record TransferResult : Type := {
  txHash : string;
  amount : string
}.

(** Calls that leave the process: the provider's ETH balance, the contract's
    [decimals], the [transfer] transaction and the wait for confirmations. *)
Inductive ChainCall : Type :=
| GetEthBalance (address : string)
| ReadDecimals
| Transfer (recipient : string) (amountInUnits : Z)
| Wait (confirmations : Z).

(** [ethers.ZeroAddress] and [ethers.parseEther('0.0001')] (in wei). *)
Definition ZeroAddress : string := "0x0000000000000000000000000000000000000000".

Definition minGasRequired : Z := 100000000000000.

(** The four messages the [catch] block lets through. *)
Definition INSUFFICIENT_FUNDS : string := "Insufficient funds for transfer".
Definition GAS_ISSUES : string := "Transaction failed due to gas issues. Please try again.".
Definition NONCE_CONFLICT : string := "Transaction conflict. Please wait and try again.".
Definition TRANSFER_FAILED : string :=
  "USDC transfer failed. Please check your balance and try again.".

(** The [catch] block of [transferUSDC]: the message of the caught error
    selects the error thrown instead. *)
Definition sanitize (error : Exn) : Exn :=
  let msg := message error in
  if includes "insufficient funds" msg then Error INSUFFICIENT_FUNDS
  else if includes "gas" msg then Error GAS_ISSUES
  else if includes "nonce" msg then Error NONCE_CONFLICT
  else Error TRANSFER_FAILED.

Section Transfer.

(** [ethers.getAddress]: the checksummed address, or a throw on an invalid one. *)
Variable getAddress : string -> Promise string.

(** [wallet.address]. *)
Variable walletAddress : string.

(** [provider.getBalance] (wei) and the contract's [decimals], given the calls
    made so far. *)
Variable getEthBalance : list ChainCall -> string -> Promise Z.
Variable decimalsOf : list ChainCall -> Promise Z.

(** [amount.toString()] and [ethers.parseUnits] (it throws on a string it
    cannot parse at that precision). *)
Variable toString : number -> string.
Variable parseUnits : string -> Z -> Promise Z.

(** The transaction: [contractWithSigner.transfer] resolves with a
    transaction response, [tx.wait(confirmations)] with its receipt's hash,
    or with [null] ([None]). *)
Variable Tx : Type.
Variable transfer : list ChainCall -> string -> Z -> Promise Tx.
Variable wait : list ChainCall -> Tx -> Z -> Promise (option string).

Definition T : Type -> Type := M (list ChainCall).

Definition call {A} (c : ChainCall) (answer : list ChainCall -> Promise A) : T A :=
  fun calls => (answer calls, (calls ++ [c])%list).

(** [amount > 100 ? 2 : 1]. *)
Definition confirmationsFor (amount : number) : Z :=
  if gtb amount 100%float then 2%Z else 1%Z.

(** The [try] block of [transferUSDC]. *)
Definition attempt (recipient : string) (amount : number) : T TransferResult :=
  if negb (truthy_string recipient) then
    throw (Error "Invalid recipient: address is required")
  else
    checksummedRecipient <-
      try_catch (await (getAddress recipient))
        (fun _ => throw (Error ("Invalid recipient address: " ++ recipient))) ;;
    if String.eqb checksummedRecipient ZeroAddress then
      throw (Error "Cannot send to zero address")
    else if PrimFloat.leb amount 0%float then
      throw (Error "Amount must be greater than zero")
    else
      ethBalance <- call (GetEthBalance walletAddress)
                      (fun calls => getEthBalance calls walletAddress) ;;
      if (ethBalance <? minGasRequired)%Z then
        throw (Error "Insufficient ETH for gas fees. Please add ETH to your wallet.")
      else
        decimals <- call ReadDecimals decimalsOf ;;
        amountInUnits <- await (parseUnits (toString amount) decimals) ;;
        tx <- call (Transfer checksummedRecipient amountInUnits)
                (fun calls => transfer calls checksummedRecipient amountInUnits) ;;
        let confirmations := confirmationsFor amount in
        receipt <- call (Wait confirmations) (fun calls => wait calls tx confirmations) ;;
        match receipt with
        | Some hash => ret {| txHash := hash; amount := toString amount |}
        | None => throw (TypeError "Cannot read properties of null (reading 'hash')")
        end.

(** [BalanceChecker.transferUSDC]. *)
Definition transferUSDC (recipient : string) (amount : number) : T TransferResult :=
  try_catch (attempt recipient amount) (fun error => throw (sanitize error)).

End Transfer.

End BalanceCheckerTransfer.

(* ===================================================================== *)
(** ** The balance, identity and status tools ([mcp-server/tools.ts]) *)
(* ===================================================================== *)

Module MCPWallet.

Import BalanceChecker.

(** The answer of [checkBalance]: [{success: true, balance: {address, amount,
    currency, decimals}}] or [{success: false, error}]. *)
Inductive BalanceResult : Type :=
| Balance (address amount currency : string) (decimals : Z)
| BalanceFailure (error : string).

Section CheckBalance.

(** [ConfigManager.loadConfig] and [WalletManager.loadFromKeychain] (they
    throw without a configuration or a wallet), and the loaded address. *)
Variable loadConfig : Promise unit.
Variable loadFromKeychain : Promise unit.
Variable walletAddress : string.

Variable balanceOf : list Call -> string -> Promise Z.
Variable decimalsOf : list Call -> Promise Z.
Variable symbolOf : list Call -> Promise string.
Variable formatUnits : Z -> Z -> Promise string.

(** [MCPTools.checkBalance]. *)
Definition checkBalance : BalanceChecker.T BalanceResult :=
  try_catch
    (await loadConfig ;;
     await loadFromKeychain ;;
     balance <- getBalance balanceOf decimalsOf symbolOf formatUnits walletAddress ;;
     ret (Balance (address balance) (BalanceChecker.balance balance)
            (symbol balance) (decimals balance)))
    (fun error => ret (BalanceFailure (message error))).

End CheckBalance.

End MCPWallet.

Module MCPIdentity.

Import TAP TAPRegistry.

(** What [TAPCredentialManager.getStatus] resolves with. *)
Record TAPStatus : Type := {
  status_verified : bool;
  status_agentId : option string;
  status_identityLevel : option TAPIdentityLevel;
  status_attestationExpires : option string;
  status_registryUrl : option string
}.

(** The arguments of [verifyIdentity]. *)
Record VerifyArgs : Type := {
  arg_level : option TAPIdentityLevel;
  arg_name : option string
}.

(** The answers of [verifyIdentity]. *)
Inductive IdentityResult : Type :=
| AlreadyVerified (agentId : option string) (identityLevel : option TAPIdentityLevel)
                  (message : string)
| NowVerified (agentId : string) (identityLevel : TAPIdentityLevel)
              (reputationScore : number) (message : string)
| IdentityFailure (error : Value).

(** The answers of [getTapStatus]. *)
Inductive StatusResult : Type :=
| NotConfigured (message : string)
| Status (verified : bool) (agentId : option string)
         (identityLevel : option TAPIdentityLevel) (reputationScore : option number)
         (attestationExpires registryUrl : option string)
| StatusFailure (error : string).

(** [(args.level as TAPIdentityLevel) || 'kyc']. *)
Definition level_or_kyc (l : option TAPIdentityLevel) : TAPIdentityLevel :=
  match l with
  | Some x => x
  | None => kyc
  end.

(** [`${status.identityLevel?.toUpperCase()}`] inside a template literal. *)
Definition shown_level (l : option TAPIdentityLevel) : string :=
  match l with
  | Some x => toUpperCase (level_string x)
  | None => "undefined"
  end.

Section Tools.

(** [DEFAULT_REGISTRY_URL] of [tap/registry.ts]. *)
Variable DEFAULT_REGISTRY_URL : string.

Variable randomPrivateKey : nat -> list Byte.byte.
Variable getPublicKey : list Byte.byte -> list Byte.byte.
Variable toBase64 : list Byte.byte -> string.
Variable fetch : list Event -> Request -> Promise Response.
Variable signMessage : string -> string -> Promise string.
Variable now : list Event -> string.
Variable numberToString : number -> string.

(** The wallet manager: [loadFromKeychain] (it throws without a wallet),
    [getAddress] and [exportPrivateKey]. *)
Variable loadFromKeychain : Promise unit.
Variable walletAddress : string.
Variable exportPrivateKey : Promise string.

(** [TAPCredentialManager.isVerified] and [getStatus] of
    [tap/credentials.ts]: read-only views of the credential store. *)
Variable isVerified : World -> Promise bool.
Variable getStatus : World -> Promise TAPStatus.

(** [new TAPRegistry(registryUrl)]: the constructor's
    [registryUrl || DEFAULT_REGISTRY_URL]. *)
Definition registryUrlOf (registryUrl : option string) : string :=
  or_else registryUrl DEFAULT_REGISTRY_URL.

Definition reading_store {A} (view : World -> Promise A) : T A :=
  fun w => (view w, w).

(** [MCPTools.verifyIdentity]. *)
Definition verifyIdentity (args : VerifyArgs) : T IdentityResult :=
  try_catch
    (let level := level_or_kyc (arg_level args) in
     await loadFromKeychain ;;
     privateKey <- await exportPrivateKey ;;
     let name := or_else (arg_name args)
                   ("Clawd Agent (" ++ slice0 8 walletAddress ++ ")") in
     alreadyVerified <- reading_store isVerified ;;
     if (alreadyVerified : bool) then
       status <- reading_store getStatus ;;
       ret (AlreadyVerified (status_agentId status) (status_identityLevel status)
              ("Already verified at " ++ shown_level (status_identityLevel status)
               ++ " level"))
     else
       registration <-
         registerAgent (registryUrlOf None) randomPrivateKey getPublicKey toBase64
           fetch signMessage now numberToString walletAddress privateKey name ;;
       result <- completeVerificationDemo (registryUrlOf None) fetch
                   (reg_agentId registration) level ;;
       match result with
       | failed error => ret (IdentityFailure (or_fallback (Some error) "Verification failed"))
       | verified _ _ score =>
           ret (NowVerified (reg_agentId registration) level score
                  ("Identity verified at " ++ toUpperCase (level_string level)
                   ++ " level. Premium merchants will now accept your payments."))
       end)
    (fun error => ret (IdentityFailure (message error))).

(** [reputation?.reputationScore]. *)
Definition score_of (r : option Reputation) : option number :=
  match r with
  | Some rep => Some (reputationScore rep)
  | None => None
  end.

(** [MCPTools.getTapStatus]. *)
Definition getTapStatus : T StatusResult :=
  try_catch
    (status <- reading_store getStatus ;;
     if negb (status_verified status) && negb (truthy_opt_string (status_agentId status))
     then
       ret (NotConfigured
              "Not verified. Use x402_verify_identity to verify your identity for premium merchant access.")
     else
       score <-
         (if status_verified status && truthy_opt_string (status_agentId status) then
            try_catch
              (reputation <-
                 getReputation (registryUrlOf (status_registryUrl status)) fetch
                   (match status_agentId status with Some a => a | None => "" end) ;;
               ret (score_of reputation))
              (fun _ => ret None)
          else ret None) ;;
       ret (Status (status_verified status) (status_agentId status)
              (status_identityLevel status) score
              (status_attestationExpires status) (status_registryUrl status)))
    (fun error => ret (StatusFailure (message error))).

End Tools.

End MCPIdentity.

(* ===================================================================== *)
(** ** Concrete configurations used by the examples below *)
(* ===================================================================== *)

Module Scenario.

Import SpendLimits.
Local Open Scope float_scope.

(** The limits of the README: 10 per transaction, 0.1 auto-approved, 50 a day. *)
Definition readme_limits : SecurityConfig :=
  {| maxTransactionAmount := 10; autoApproveUnder := 0.1; dailyLimit := 50 |}.

(** Limits with a daily ceiling of 20. *)
Definition tight_limits : SecurityConfig :=
  {| maxTransactionAmount := 10; autoApproveUnder := 0.1; dailyLimit := 20 |}.

(** A clock reading, and a ledger seen from it: 18 approved today, a pending
    and a failed attempt today, and an approved payment two days ago. *)
Definition noon : Z := 1767268800000.

Definition ledger18 : list LedgerEntry :=
  [ {| timestamp := noon - 3600000; amount := 10; status := approved; service := "weather" |};
    {| timestamp := noon - 1800000; amount := 7; status := pending; service := "maps" |};
    {| timestamp := noon - 2 * WINDOW_MS; amount := 30; status := approved; service := "news" |};
    {| timestamp := noon - 60000; amount := 4; status := failed; service := "maps" |};
    {| timestamp := noon - 1000; amount := 8; status := approved; service := "maps" |} ].

(** The validator as the payment tool calls it, over the README limits and an
    empty ledger. *)
Definition validate_readme (a : number) : Promise ValidationResult :=
  Resolved (validateTransaction readme_limits [] noon a).

(** Payment requests declaring a maximum of 0, of 15, and none at all. *)
Definition request_max (m : option number) : MCPTools.PaymentRequest :=
  {| MCPTools.url := "https://api.example.com/forecast";
     MCPTools.method := "GET";
     MCPTools.description := "forecast";
     MCPTools.maxAmount := m;
     MCPTools.body := None |}.

(** A payment handler that initializes and whose payment goes through. *)
Definition initialized : Promise unit := Resolved tt.

Definition paid (url method : string) (body : option string) (description : string)
    : Promise string :=
  Resolved "paid"%string.

(** *** A registry, a random source and a wallet to run the client against *)

Import TAP.

Definition registry_url : string := "https://tap-registry.visa.com/v1".

(** A random source that never repeats: the [n]-th key is 32 copies of byte [n]. *)
Definition counting_keys (n : nat) : list Byte.byte :=
  repeat (match Byte.of_nat n with Some b => b | None => Byte.xff end) 32.

(** Stand-ins for the Ed25519 derivation and the base64 encoder. *)
Definition toy_public_key (privateKey : list Byte.byte) : list Byte.byte :=
  rev privateKey.

Definition toy_base64 (bytes : list Byte.byte) : string :=
  toHex (firstn 4 bytes).

Definition toy_sign (walletPrivateKey message : string) : Promise string :=
  Resolved ("signed:" ++ message).

Definition new_year (events : list Event) : string := "2026-01-01T00:00:00.000Z".

Definition answer (status : string) (body : Json) : Promise Response :=
  Resolved {| ok := true; statusText := status; json := Resolved body |}.

Definition refuse (status : string) (body : Promise Json) : Promise Response :=
  Resolved {| ok := false; statusText := status; json := body |}.

(** A registry that accepts everything; the key id it assigns is derived from
    the submitted public key. *)
Definition registry_up (events : list Event) (r : Request) : Promise Response :=
  match req_body r with
  | ChallengeBody address _ => answer "OK" (JChallenge "nonce-1" ("Sign in as " ++ address))
  | RegisterWalletBody _ _ public_key _ _ _ =>
      answer "Created"
        (JRegistration {| agent_id := "agent-" ++ public_key;
                          agent_keys := ["key-" ++ public_key];
                          verification_url := "https://tap-registry.visa.com/verify" |})
  | NoBody =>
      answer "OK"
        (JVerifyDemo {| level := kyc; attestation_jwt := "eyJ.kyc.sig";
                        issued_at := "2026-01-01T00:00:00Z";
                        expires_at := "2027-01-01T00:00:00Z" |})
  | VerifyBody _ _ =>
      answer "OK"
        (JVerify {| resp_valid := true; resp_error := None;
                    identity_level := Some kyc;
                    reputation := Some (Some 50%float) |})
  end.

(** A registry that issues challenges but refuses the registration (409) and
    the verification (403), with a [detail]. *)
Definition registry_refusing (events : list Event) (r : Request) : Promise Response :=
  match req_body r with
  | ChallengeBody address _ => answer "OK" (JChallenge "nonce-1" ("Sign in as " ++ address))
  | RegisterWalletBody _ _ _ _ _ _ =>
      refuse "Conflict" (Resolved (JError (Some (VString "Wallet already registered"))))
  | NoBody => refuse "Forbidden" (Resolved (JError (Some (VString "Agent not found"))))
  | VerifyBody _ _ => refuse "Service Unavailable" (Rejected (SyntaxError "Unexpected token <"))
  end.

(** A registry that issues challenges and then answers 500 with an HTML page. *)
Definition registry_broken (events : list Event) (r : Request) : Promise Response :=
  match req_body r with
  | ChallengeBody address _ => answer "OK" (JChallenge "nonce-1" ("Sign in as " ++ address))
  | _ => refuse "Internal Server Error" (Rejected (SyntaxError "Unexpected token <"))
  end.

(** No network: every [fetch] rejects. *)
Definition offline (events : list Event) (r : Request) : Promise Response :=
  Rejected (TypeError "fetch failed").

(** A registry whose attestation expires before it was issued. *)
Definition registry_backdated (events : list Event) (r : Request) : Promise Response :=
  answer "OK"
    (JVerifyDemo {| level := kyc; attestation_jwt := "eyJ.kyc.sig";
                    issued_at := "2026-06-01T00:00:00Z";
                    expires_at := "2026-01-01T00:00:00Z" |}).

(** A fresh profile, and a profile left by an earlier registration. *)
Definition fresh : World :=
  {| keychain := None; agentFile := None; attestationFile := None;
     drawn := 0; trace := [] |}.

Definition earlier_agent : StoredAgent :=
  {| identity := {| agentId := "agent-old"; keyId := "key-old";
                    publicKey := "b2xk"; registeredAt := "2025-06-01T00:00:00.000Z" |};
     walletAddress := "eip155:8453:0xabc"; agentName := "Clawd Agent";
     agentRegistryUrl := registry_url |}.

Definition registered : World :=
  {| keychain := Some "0707"; agentFile := Some earlier_agent;
     attestationFile := None; drawn := 7; trace := [] |}.

(** A stand-in for [Number.prototype.toString] on the numbers used below. *)
Definition toy_number_text (n : number) : string :=
  if PrimFloat.eqb n 404%float then "404" else "NaN".

(** The client run against a given registry, for the wallet [0xAbC123]. *)
Definition register_with (registry : list Event -> Request -> Promise Response)
    : World -> Promise Registration * World :=
  TAPRegistry.registerAgent registry_url counting_keys toy_public_key toy_base64
    registry toy_sign new_year toy_number_text "0xAbC123" "0xwalletkey" "Clawd Agent".

Definition complete_with (registry : list Event -> Request -> Promise Response)
    : World -> Promise TAPVerificationResult * World :=
  TAPRegistry.completeVerificationDemo registry_url registry "agent-00000000" kyc.

Definition verify_with (registry : list Event -> Request -> Promise Response)
    : World -> Promise Verification * World :=
  TAPRegistry.verifyAgent registry_url registry "eip155:8453:0xabc123" "eyJ.kyc.sig".

(** *** An RPC node to run the balance checker against *)

(** A node holding 3.5 USDC (6 decimals) for every address, and a node that
    cannot be reached. *)
Definition node_balanceOf (calls : list BalanceChecker.Call) (owner : string) : Promise Z :=
  Resolved 3500000%Z.

Definition node_decimals (calls : list BalanceChecker.Call) : Promise Z := Resolved 6%Z.

Definition node_symbol (calls : list BalanceChecker.Call) : Promise string :=
  Resolved "USDC".

Definition unreachable_balanceOf (calls : list BalanceChecker.Call) (owner : string)
    : Promise Z :=
  Rejected (Error "could not detect network").

(** Stand-ins for [ethers.formatUnits] and [parseFloat] on the values above. *)
Definition toy_formatUnits (value decimals : Z) : Promise string :=
  if (value =? 3500000)%Z && (decimals =? 6)%Z then Resolved "3.5"
  else Rejected (Error "invalid decimals").

Definition toy_parseFloat (s : string) : number :=
  if String.eqb s "3.5" then 3.5%float else PrimFloat.nan.

(** *** A chain to run the transfer against *)

(** Checksumming: the zero address and one known address are valid, anything
    else is not. *)
Definition toy_getAddress (a : string) : Promise string :=
  if String.eqb (toLowerCase a) BalanceCheckerTransfer.ZeroAddress
  then Resolved BalanceCheckerTransfer.ZeroAddress
  else if String.eqb (toLowerCase a) "0x52908400098527886e0f7030069857d2e4169ee7"
  then Resolved "0x52908400098527886E0F7030069857D2E4169EE7"
  else Rejected (TypeError "invalid address").

Definition merchant : string := "0x52908400098527886e0f7030069857d2e4169ee7".

(** A wallet with 0.001 ETH, and one with 0.00001 ETH. *)
Definition funded_eth (calls : list BalanceCheckerTransfer.ChainCall) (a : string)
    : Promise Z :=
  Resolved 1000000000000000%Z.

Definition dust_eth (calls : list BalanceCheckerTransfer.ChainCall) (a : string)
    : Promise Z :=
  Resolved 10000000000000%Z.

Definition six_decimals (calls : list BalanceCheckerTransfer.ChainCall) : Promise Z :=
  Resolved 6%Z.

(** Stand-ins for [Number.prototype.toString] and [ethers.parseUnits] on the
    amounts used below. *)
Definition toy_toString (a : number) : string :=
  if PrimFloat.eqb a 5%float then "5"
  else if PrimFloat.eqb a 250%float then "250"
  else "NaN".

Definition toy_parseUnits (s : string) (decimals : Z) : Promise Z :=
  if String.eqb s "5" then Resolved (5 * 10 ^ decimals)%Z
  else if String.eqb s "250" then Resolved (250 * 10 ^ decimals)%Z
  else Rejected (TypeError "invalid FixedNumber string value").

(** A node that accepts every transfer and confirms it. *)
Definition accept_transfer (calls : list BalanceCheckerTransfer.ChainCall)
    (recipient : string) (units : Z) : Promise nat :=
  Resolved (List.length calls).

Definition confirm (calls : list BalanceCheckerTransfer.ChainCall) (tx : nat)
    (confirmations : Z) : Promise (option string) :=
  Resolved (Some "0xfeed").

(** The transfer from the wallet [0xwallet] on that chain. *)
Definition transfer_with
    (eth : list BalanceCheckerTransfer.ChainCall -> string -> Promise Z)
    : string -> number -> BalanceCheckerTransfer.T BalanceCheckerTransfer.TransferResult :=
  BalanceCheckerTransfer.transferUSDC toy_getAddress "0xwallet" eth six_decimals
    toy_toString toy_parseUnits nat accept_transfer confirm.

(** *** More registries and a credential store view *)

(** A registry that refuses everything with 429. *)
Definition registry_closed (events : list Event) (r : Request) : Promise Response :=
  refuse "Too Many Requests" (Resolved (JError (Some (VString "Rate limit exceeded")))).

(** The profile after a registration and a completed verification. *)
Definition verified_profile : World :=
  snd (complete_with registry_up (snd (register_with registry_up fresh))).

(** A credential-store view: verified when an attestation is stored. *)
Definition toy_isVerified (w : World) : Promise bool :=
  Resolved (match attestationFile w with Some _ => true | None => false end).

Definition toy_getStatus (w : World) : Promise MCPIdentity.TAPStatus :=
  Resolved
    {| MCPIdentity.status_verified :=
         match attestationFile w with Some _ => true | None => false end;
       MCPIdentity.status_agentId := option_map (fun a => agentId (identity a)) (agentFile w);
       MCPIdentity.status_identityLevel := option_map identityLevel (attestationFile w);
       MCPIdentity.status_attestationExpires := option_map expiresAt (attestationFile w);
       MCPIdentity.status_registryUrl := option_map agentRegistryUrl (agentFile w) |}.


(** A registry that refuses the registration and the verification with 422
    and a list of validation errors as [detail]. *)
Definition field_required : Value :=
  VArray [VObject [("loc", VArray [VString "body"; VString "name"]);
                   ("msg", VString "field required")]].

Definition registry_unprocessable (events : list Event) (r : Request) : Promise Response :=
  match req_body r with
  | ChallengeBody address _ => answer "OK" (JChallenge "nonce-1" ("Sign in as " ++ address))
  | _ => refuse "Unprocessable Entity" (Resolved (JError (Some field_required)))
  end.


Definition registry_null (events : list Event) (r : Request) : Promise Response :=
  answer "OK" JNull.

Definition registry_null_refusal (events : list Event) (r : Request) : Promise Response :=
  match req_body r with
  | ChallengeBody address _ => answer "OK" (JChallenge "nonce-1" ("Sign in as " ++ address))
  | _ => refuse "Bad Gateway" (Resolved JNull)
  end.

(** The identity tool for the wallet [0xAbC123], asking for a given level. *)
Definition identify_with (registry : list Event -> Request -> Promise Response)
    (level : option TAPIdentityLevel) : World -> Promise MCPIdentity.IdentityResult * World :=
  MCPIdentity.verifyIdentity registry_url counting_keys toy_public_key toy_base64
    registry toy_sign new_year toy_number_text (Resolved tt) "0xAbC123"
    (Resolved "0xwalletkey")
    toy_isVerified toy_getStatus
    {| MCPIdentity.arg_level := level; MCPIdentity.arg_name := None |}.

End Scenario.

(* ===================================================================== *)
(** ** Properties of the spend-limit validator *)
(* ===================================================================== *)

Module SpendLimitsFacts.

Import SpendLimits.
Local Open Scope float_scope.

(** The running total is the left-to-right sum of the amounts of the entries
    that count. *)
Lemma dailyTotal_from_filter (now : Z) (ledger : list LedgerEntry) (total : number) :
  dailyTotal_from total now ledger
  = fold_left PrimFloat.add (map amount (filter (counts now) ledger)) total.
Proof.
  revert total.
  induction ledger as [| e rest IH]; intro total; simpl.
  - reflexivity.
  - destruct (counts now e); simpl; apply IH.
Qed.

(** An entry that is not approved never changes the total. *)
Lemma dailyTotal_skips_unapproved (now : Z) (e : LedgerEntry) (ledger : list LedgerEntry) :
  status e <> approved ->
  dailyTotal now (e :: ledger) = dailyTotal now ledger.
Proof.
  intro H. unfold dailyTotal. simpl. unfold counts.
  destruct (status e); simpl; try reflexivity. contradiction.
Qed.

(** An entry outside the rolling window never changes the total. *)
Lemma dailyTotal_skips_old (now : Z) (e : LedgerEntry) (ledger : list LedgerEntry) :
  (timestamp e < now - WINDOW_MS)%Z ->
  dailyTotal now (e :: ledger) = dailyTotal now ledger.
Proof.
  intro H. unfold dailyTotal. simpl. unfold counts, in_window.
  replace (now - WINDOW_MS <=? timestamp e)%Z with false
    by (symmetry; apply Z.leb_gt; exact H).
  rewrite andb_false_r. reflexivity.
Qed.

Lemma errors_empty_iff_valid (cfg : SecurityConfig) (ledger : list LedgerEntry)
    (now : Z) (a : number) :
  valid (validateTransaction cfg ledger now a) = true
  <-> errors (validateTransaction cfg ledger now a) = [].
Proof.
  unfold validateTransaction.
  destruct (a <=? 0); simpl.
  - split; discriminate.
  - destruct (gtb a (maxTransactionAmount cfg)),
             (gtb (dailyTotal now ledger + a) (dailyLimit cfg));
      simpl; split; intro H; try reflexivity; discriminate.
Qed.

(** C2: [validateTransaction a] is invalid iff [a <= 0], or
    [a > maxTransactionAmount], or [dailyTotal + a > dailyLimit], where
    [dailyTotal] sums the approved ledger entries of the rolling 24-hour
    window only; and it signals [autoApprove] iff it is valid and
    [a <= autoApproveUnder]. *)
Theorem validateTransaction_iff (cfg : SecurityConfig) (ledger : list LedgerEntry)
    (now : Z) (a : number) :
  let r := validateTransaction cfg ledger now a in
  (valid r = false
   <-> (a <=? 0) = true
       \/ gtb a (maxTransactionAmount cfg) = true
       \/ gtb (dailyTotal now ledger + a) (dailyLimit cfg) = true)
  /\ (autoApprove r = true
      <-> valid r = true /\ (a <=? autoApproveUnder cfg) = true)
  /\ dailyTotal now ledger
     = fold_left PrimFloat.add
         (map amount
            (filter (fun e => is_approved (status e) && in_window now e) ledger))
         0.
Proof.
  cbv zeta. split; [| split].
  - unfold validateTransaction.
    destruct (a <=? 0) eqn:Hpos; simpl.
    + split; intro; [left |]; reflexivity.
    + destruct (gtb a (maxTransactionAmount cfg)) eqn:Hmax,
               (gtb (dailyTotal now ledger + a) (dailyLimit cfg)) eqn:Hday;
        simpl; split; intro H; try reflexivity; try discriminate; auto.
      destruct H as [H | [H | H]]; discriminate.
  - unfold validateTransaction.
    destruct (a <=? 0) eqn:Hpos; simpl.
    + split; [discriminate | intros [H _]; discriminate].
    + destruct (gtb a (maxTransactionAmount cfg)),
               (gtb (dailyTotal now ledger + a) (dailyLimit cfg));
        simpl; split; intro H; try discriminate; try tauto;
        try (destruct H; discriminate).
  - unfold dailyTotal. apply dailyTotal_from_filter.
Qed.

(** Scenario C of the specification: 18 spent today, daily limit 20, a
    payment of 5 is under the per-transaction limit and yet invalid. *)
Example scenario_C :
  dailyTotal Scenario.noon Scenario.ledger18 = 18
  /\ validateTransaction Scenario.tight_limits Scenario.ledger18 Scenario.noon 5
     = {| valid := false; errors := ["would exceed daily limit"%string];
          autoApprove := false |}.
Proof. split; vm_compute; reflexivity. Qed.

Example auto_approved_small_amount :
  validateTransaction Scenario.readme_limits [] Scenario.noon 0.05
  = {| valid := true; errors := []; autoApprove := true |}.
Proof. vm_compute. reflexivity. Qed.

Example both_limits_reported :
  errors (validateTransaction Scenario.tight_limits Scenario.ledger18 Scenario.noon 15)
  = ["exceeds per-transaction limit"%string; "would exceed daily limit"%string].
Proof. vm_compute. reflexivity. Qed.

End SpendLimitsFacts.

(* ===================================================================== *)
(** ** Properties of the payment tool *)
(* ===================================================================== *)

Module MCPToolsFacts.

Import SpendLimits MCPTools.

Section Facts.

Variable validateTransaction : number -> Promise ValidationResult.
Variable PaymentResult : Type.
Variable initialize : Promise unit.
Variable executePayment : string -> string -> option string -> string -> Promise PaymentResult.

Let run := paymentRequest validateTransaction PaymentResult initialize executePayment.

Lemma execute_pays (args : PaymentRequest) (log : list Effect) :
  try_catch (execute PaymentResult initialize executePayment args)
            (fun error => ret (Failure (message error))) log
  = pays PaymentResult initialize executePayment args log.
Proof.
  unfold pays, try_catch, execute, bind, emit, modify, await, ret.
  destruct initialize as [[] | e]; simpl.
  - destruct (executePayment _ _ _ _); simpl;
      repeat rewrite <- app_assoc; reflexivity.
  - repeat rewrite <- app_assoc. reflexivity.
Qed.

(** Failing fast, where the guard lets the validation run: for a request
    whose declared maximum is truthy (neither 0 nor NaN), when the spend-limit
    validation of that amount rejects, the tool resolves with the failure
    result carrying the joined validation errors, and its only effect is the
    validation: no payment handler is constructed and no payment is
    executed. *)
Theorem paymentRequest_fails_fast (args : PaymentRequest) (a : number)
    (validation : ValidationResult) (log : list Effect) :
  maxAmount args = Some a ->
  truthy a = true ->
  validateTransaction a = Resolved validation ->
  valid validation = false ->
  run args log
  = (Resolved (Failure (join ", " (errors validation))),
     (log ++ [ValidateTransaction a])%list).
Proof.
  intros Hmax Htruthy Hval Hinvalid.
  unfold run, paymentRequest, try_catch, bind, emit, modify, await, ret.
  rewrite Hmax, Htruthy. simpl. rewrite Hval. simpl. rewrite Hinvalid. reflexivity.
Qed.

(** A validator that throws (an unreadable configuration, say) also stops the
    tool before any handler is built. *)
Lemma paymentRequest_validator_throws (args : PaymentRequest) (a : number)
    (e : Exn) (log : list Effect) :
  maxAmount args = Some a ->
  truthy a = true ->
  validateTransaction a = Rejected e ->
  run args log
  = (Resolved (Failure (message e)), (log ++ [ValidateTransaction a])%list).
Proof.
  intros Hmax Htruthy Hval.
  unfold run, paymentRequest, try_catch, bind, emit, modify, await, ret.
  rewrite Hmax, Htruthy. simpl. rewrite Hval. reflexivity.
Qed.

(** A truthy maximum that passes validation is followed by execution. *)
Lemma paymentRequest_valid_pays (args : PaymentRequest) (a : number)
    (validation : ValidationResult) (log : list Effect) :
  maxAmount args = Some a ->
  truthy a = true ->
  validateTransaction a = Resolved validation ->
  valid validation = true ->
  run args log = pays PaymentResult initialize executePayment args (log ++ [ValidateTransaction a])%list.
Proof.
  intros Hmax Htruthy Hval Hvalid.
  rewrite <- execute_pays.
  unfold run, paymentRequest, try_catch, bind, emit, modify, await, ret.
  rewrite Hmax, Htruthy. simpl. rewrite Hval. simpl. rewrite Hvalid. reflexivity.
Qed.

(** C9: when the declared maximum is falsy (exactly 0, NaN, or absent) the
    validation step is skipped and the tool goes straight to execution: the
    outcome is that of paying, whatever the validator would have said, and no
    validation appears among the effects. *)
Theorem paymentRequest_skips_validation (args : PaymentRequest) (log : list Effect) :
  truthy_opt (maxAmount args) = false ->
  run args log = pays PaymentResult initialize executePayment args log.
Proof.
  intro Hfalsy.
  rewrite <- execute_pays.
  unfold run, paymentRequest, try_catch.
  destruct (maxAmount args) as [a |]; simpl in Hfalsy.
  - rewrite Hfalsy. reflexivity.
  - reflexivity.
Qed.

End Facts.

Import Scenario.
Local Open Scope float_scope.

(** A declared maximum of 15 against a per-transaction limit of 10 stops at
    the validation. *)
Lemma paymentRequest_fails_fast_witness :
  truthy 15 = true
  /\ valid (validateTransaction readme_limits [] noon 15) = false
  /\ paymentRequest validate_readme string initialized paid (request_max (Some 15)) []
     = (Resolved (Failure "exceeds per-transaction limit"), [ValidateTransaction 15]).
Proof.
  split; [reflexivity | split; [reflexivity |]].
  exact (paymentRequest_fails_fast validate_readme string initialized paid
           (request_max (Some 15)) 15 (validateTransaction readme_limits [] noon 15) []
           eq_refl eq_refl eq_refl eq_refl).
Defined.

(** C1: a request that declares a maximum amount whose validation rejects is
    not always stopped before the payment.  For a declared maximum of 0 the
    validation of 0 rejects ("amount must be positive"), and yet the tool
    validates nothing, constructs the handler and executes the payment: the
    guard [if (maxAmount)], under the comment "Validate max amount if
    provided", takes the provided 0 for no maximum at all. *)
Lemma paymentRequest_zero_max_is_paid :
  maxAmount (request_max (Some 0)) = Some 0
  /\ validate_readme 0
     = Resolved {| valid := false; errors := ["amount must be positive"%string];
                   autoApprove := false |}
  /\ paymentRequest validate_readme string initialized paid (request_max (Some 0)) []
     = (Resolved (Returned "paid"%string),
        [NewPaymentHandler; Initialize;
         ExecutePayment "https://api.example.com/forecast" "GET" None "forecast"]).
Proof. repeat split. Qed.

(** C9 (witness): the same request through the theorem. *)
Lemma paymentRequest_skips_validation_witness :
  truthy_opt (Some 0) = false
  /\ paymentRequest validate_readme string initialized paid (request_max (Some 0)) []
     = pays string initialized paid (request_max (Some 0)) [].
Proof.
  split; [reflexivity |].
  exact (paymentRequest_skips_validation validate_readme string initialized paid
           (request_max (Some 0)) [] eq_refl).
Defined.

Example absent_max_is_paid :
  paymentRequest validate_readme string initialized paid (request_max None) []
  = (Resolved (Returned "paid"%string),
     [NewPaymentHandler; Initialize;
      ExecutePayment "https://api.example.com/forecast" "GET" None "forecast"]).
Proof. reflexivity. Qed.

Example negative_max_is_rejected :
  paymentRequest validate_readme string initialized paid (request_max (Some (-1))) []
  = (Resolved (Failure "amount must be positive"), [ValidateTransaction (-1)]).
Proof. reflexivity. Qed.

End MCPToolsFacts.

(* ===================================================================== *)
(** ** Properties of the TAP registry client *)
(* ===================================================================== *)

Module TAPRegistryFacts.

Import TAP TAPRegistry.

(** *** Hexadecimal encoding loses nothing *)




(** *** Stepping through the client *)

(** Case analysis on the outcome of each awaited step, innermost first. *)
Ltac settle :=
  repeat match goal with
  | H : (_, _) = (_, _) |- _ => injection H as <- <-
  | H : context [match ?x with _ => _ end] |- _ =>
      lazymatch x with
      | context [match _ with _ => _ end] => fail
      | _ => destruct x eqn:?; simpl in H
      end
  end.

Ltac unfold_client :=
  unfold registerAgent, completeVerificationDemo, verifyAgent, getChallenge,
    generateKeyPair, savePrivateKey, saveAgent, saveAttestation, loadAgent,
    loadAttestation, request, throw, await, ret, modify, log, try_catch, bind.

Section ClientFacts.

Variable registryUrl : string.
Variable randomPrivateKey : nat -> list Byte.byte.
Variable getPublicKey : list Byte.byte -> list Byte.byte.
Variable toBase64 : list Byte.byte -> string.
Variable fetch : list Event -> Request -> Promise Response.
Variable signMessage : string -> string -> Promise string.
Variable now : list Event -> string.
Variable numberToString : number -> string.

Let register :=
  registerAgent registryUrl randomPrivateKey getPublicKey toBase64 fetch signMessage now
    numberToString.
Let key := drawn_key randomPrivateKey.
Let public := drawn_public randomPrivateKey getPublicKey toBase64.
Let complete := completeVerificationDemo registryUrl fetch.
Let verify := verifyAgent registryUrl fetch.

(** Whatever the outcome of [registerAgent], the new private key is in the
    keychain, one key has been drawn and the attestation is untouched.  On a
    rejection the agent record is untouched and the call has only saved the
    key and sent requests; on success the record is the new identity. *)
Lemma registerAgent_settled (walletAddress walletPrivateKey name : string)
    (w w' : World) (p : Promise Registration) :
  register walletAddress walletPrivateKey name w = (p, w') ->
  keychain w' = Some (toHex (key w))
  /\ drawn w' = S (drawn w)
  /\ attestationFile w' = attestationFile w
  /\ match p with
     | Rejected _ =>
         agentFile w' = agentFile w
         /\ exists requests,
              trace w' = (trace w ++ KeychainSave (toHex (key w)) :: map Fetch requests)%list
     | Resolved r =>
         reg_publicKey r = public w
         /\ exists registeredAt signature siweMessage,
              agentFile w' = Some (stored_agent registryUrl r walletAddress name registeredAt)
              /\ trace w'
                 = (trace w ++
                    [KeychainSave (toHex (key w));
                     Fetch (challengeRequest registryUrl walletAddress);
                     Fetch (registerRequest registryUrl walletAddress name (reg_publicKey r)
                              signature siweMessage);
                     SaveAgent (stored_agent registryUrl r walletAddress name registeredAt)])%list
     end.
Proof.
  unfold register, key, public, drawn_key, drawn_public, stored_agent.
  unfold_client. simpl. intro H.
  settle; simpl; repeat split; repeat rewrite <- app_assoc; simpl;
    solve [ eexists (_ :: nil); reflexivity
          | eexists (_ :: _ :: nil); reflexivity
          | do 3 eexists; split; reflexivity ].
Qed.

(** The key is saved first, whatever happens next. *)
Lemma registerAgent_saves_key_first (walletAddress walletPrivateKey name : string)
    (w : World) :
  exists rest,
    trace (snd (register walletAddress walletPrivateKey name w))
    = (trace w ++ KeychainSave (toHex (key w)) :: rest)%list.
Proof.
  destruct (register walletAddress walletPrivateKey name w) as [p w'] eqn:H.
  destruct (registerAgent_settled _ _ _ _ _ _ H) as (_ & _ & _ & Hp).
  destruct p as [r | e]; simpl.
  - destruct Hp as (_ & ts & sg & m & _ & Ht). rewrite Ht. eexists. reflexivity.
  - destruct Hp as (_ & requests & Ht). rewrite Ht. eexists. reflexivity.
Qed.

(** C8: [registerAgent] puts the newly generated private key in the keychain
    before any network call: the save is the first effect of every call.
    Hence when the call fails afterwards (challenge, signature or
    registration) the keychain already holds the new key while the
    credential store is as it was, the call having only saved the key and
    sent requests: the two stores are not updated atomically. *)
Theorem registerAgent_failure_keeps_new_key (walletAddress walletPrivateKey name : string)
    (w w' : World) (outcome : Promise Registration) :
  register walletAddress walletPrivateKey name w = (outcome, w') ->
  keychain w' = Some (toHex (key w))
  /\ (exists rest, trace w' = (trace w ++ KeychainSave (toHex (key w)) :: rest)%list)
  /\ (is_resolved outcome = false ->
      agentFile w' = agentFile w
      /\ attestationFile w' = attestationFile w
      /\ exists requests,
           trace w' = (trace w ++ KeychainSave (toHex (key w)) :: map Fetch requests)%list).
Proof.
  intro H.
  destruct (registerAgent_settled _ _ _ _ _ _ H) as (Hk & _ & Hatt & Hp).
  split; [exact Hk | split].
  - pose proof (registerAgent_saves_key_first walletAddress walletPrivateKey name w) as Hfirst.
    rewrite H in Hfirst. exact Hfirst.
  - intro Hfailed. destruct outcome as [r | e]; [discriminate |].
    destruct Hp as (Hagent & Htrace). repeat split; assumption.
Qed.


(** *** The registry refuses a registration *)

Section Refused.

Variables walletAddress walletPrivateKey name : string.
Variable w : World.
Variable challenged : Response.
Variables challenge siweMessage signature : string.
Variable response : Response.

Let asked := challengeRequest registryUrl walletAddress.
Let submitted :=
  registerRequest registryUrl walletAddress name (public w) signature siweMessage.
Let saved := KeychainSave (toHex (key w)).

(** The challenge is issued and signed, and the registration request is
    answered with a non-2xx response. *)
Hypothesis challenge_issued :
  fetch (trace w ++ [saved])%list asked = Resolved challenged.
Hypothesis challenge_ok : ok challenged = true.
Hypothesis challenge_body : json challenged = Resolved (JChallenge challenge siweMessage).
Hypothesis challenge_signed : signMessage walletPrivateKey siweMessage = Resolved signature.
Hypothesis registration_answered :
  fetch (trace w ++ [saved; Fetch asked])%list submitted = Resolved response.
Hypothesis registration_refused : ok response = false.

(** C7 (amended): on a non-2xx answer to the registration, [registerAgent]
    throws, having sent the registration request exactly once (the effects
    of the call are the key save, the challenge request and that one
    request) and stored nothing.  The error's message is the registry's
    [detail] verbatim when the body is a JSON object whose detail is a
    non-empty string, and the fallback ["Registration failed: "] followed by
    the HTTP status text when the body cannot be parsed or carries no detail
    (or a falsy one).  The theorem also says what the remaining bodies give:
    a detail that is not a string is put through [String] (a list of objects
    becomes ["[object Object]"]), and the body [null] makes the read of
    [detail] throw a [TypeError]. *)
Theorem registerAgent_refused :
  register walletAddress walletPrivateKey name w
  = (Rejected
       match json response with
       | Resolved (JError (Some (VString (String c rest)))) => Error (String c rest)
       | Resolved (JError (Some detail)) =>
           Error (if truthy_value detail then js_string numberToString detail
                  else "Registration failed: " ++ statusText response)
       | Resolved JNull => reading_null "detail"
       | _ => Error ("Registration failed: " ++ statusText response)
       end,
     {| keychain := Some (toHex (key w));
        agentFile := agentFile w;
        attestationFile := attestationFile w;
        drawn := S (drawn w);
        trace := (trace w ++ [saved; Fetch asked; Fetch submitted])%list |}).
Proof.
  unfold saved, asked, submitted in *.
  unfold register, key, public, drawn_public, drawn_key in *.
  unfold_client. simpl.
  rewrite challenge_issued. rewrite challenge_ok. simpl.
  rewrite challenge_body. simpl. rewrite challenge_signed.
  repeat rewrite <- app_assoc. simpl.
  rewrite registration_answered. rewrite registration_refused. simpl.
  unfold error_detail, or_fallback.
  destruct (json response) as [[| | | | [detail |] |] | e]; simpl; try reflexivity.
  destruct detail as [| b | n | [| c rest] | items | fields]; simpl; try reflexivity.
  - destruct b; reflexivity.
  - unfold truthy_value. destruct (truthy n); reflexivity.
Qed.

End Refused.

(** *** Completing a verification *)

(** An accepted completion: the attestation built from the answer is stored
    and the result is [verified]. *)
Lemma completeVerificationDemo_accepted (agentId : string) (level : TAPIdentityLevel)
    (w : World) (r : VerifyDemoResponse) :
  accepted (fetch (trace w) (verifyDemoRequest registryUrl agentId level)) = Some r ->
  complete agentId level w
  = (Resolved (verified agentId (TAP.level r) 50%float),
     {| keychain := keychain w;
        agentFile := agentFile w;
        attestationFile := Some (attestation_of registryUrl r);
        drawn := drawn w;
        trace := (trace w ++ [Fetch (verifyDemoRequest registryUrl agentId level);
                              SaveAttestation (attestation_of registryUrl r)])%list |}).
Proof.
  unfold complete, accepted. unfold_client. intro H.
  destruct (fetch _ _) as [response | e]; [| discriminate].
  destruct (ok response); [| discriminate]. simpl.
  destruct (json response) as [[] | e]; try discriminate.
  injection H as ->. simpl. rewrite <- app_assoc. reflexivity.
Qed.

(** Anything else: the only effect is the request. *)
Lemma completeVerificationDemo_not_accepted (agentId : string) (level : TAPIdentityLevel)
    (w : World) :
  accepted (fetch (trace w) (verifyDemoRequest registryUrl agentId level)) = None ->
  snd (complete agentId level w)
  = log (Fetch (verifyDemoRequest registryUrl agentId level)) w.
Proof.
  unfold complete, accepted. unfold_client. intro H.
  destruct (fetch _ _) as [response | e]; [| reflexivity].
  destruct (ok response); [| simpl; destruct (error_detail response); reflexivity].
  simpl.
  destruct (json response) as [[] | e]; try discriminate; reflexivity.
Qed.


(** C5 (amended): [completeVerificationDemo] does not compare the two
    timestamps: whenever the registry accepts the completion, the attestation
    is stored with [issuedAt] and [expiresAt] exactly as the registry sent
    them, and the result is [verified]. *)
Theorem completeVerificationDemo_stores_timestamps_verbatim (agentId : string)
    (level : TAPIdentityLevel) (w : World) (r : VerifyDemoResponse) :
  accepted (fetch (trace w) (verifyDemoRequest registryUrl agentId level)) = Some r ->
  fst (complete agentId level w) = Resolved (verified agentId (TAP.level r) 50%float)
  /\ exists stored,
       attestationFile (snd (complete agentId level w)) = Some stored
       /\ issuedAt stored = issued_at r
       /\ expiresAt stored = expires_at r.
Proof.
  intro H. rewrite (completeVerificationDemo_accepted _ _ _ _ H). simpl.
  split; [reflexivity |].
  exists (attestation_of registryUrl r). repeat split.
Qed.

(** *** Verifying an agent *)

(** C3 (amended): [verifyAgent] returns a value with [valid = false] whenever
    the registry answers with a non-2xx response; on a 2xx answer whose body
    is a verification response it returns the registry's verdict ([valid]
    with the level and score when the body says valid, [valid = false] with
    the body's error otherwise), and [valid = false] on an object of another
    shape.  It throws when the [fetch] itself fails, when the 2xx body
    cannot be parsed and when the 2xx body is [null]: the exception
    propagates to the caller. *)
Theorem verifyAgent_settles (walletAddress attestation : string) (w : World) :
  let outcome := fst (verify walletAddress attestation w) in
  match fetch (trace w) (verifyRequest registryUrl walletAddress attestation) with
  | Rejected e => outcome = Rejected e
  | Resolved response =>
      if ok response then
        match json response with
        | Rejected e => outcome = Rejected e
        | Resolved JNull => outcome = Rejected (reading_null "valid")
        | Resolved (JVerify body) =>
            outcome
            = Resolved (if resp_valid body
                        then {| valid := true;
                                ver_identityLevel := identity_level body;
                                ver_reputationScore := reputation_score body;
                                ver_error := None |}
                        else {| valid := false; ver_identityLevel := None;
                                ver_reputationScore := None;
                                ver_error := resp_error body |})
        | Resolved _ =>
            outcome
            = Resolved {| valid := false; ver_identityLevel := None;
                          ver_reputationScore := None; ver_error := None |}
        end
      else
        outcome
        = Resolved {| valid := false; ver_identityLevel := None;
                      ver_reputationScore := None;
                      ver_error := Some ("Verification failed: " ++ statusText response) |}
  end.
Proof.
  cbv zeta. unfold verify. unfold_client. simpl.
  destruct (fetch _ _) as [response | e]; simpl; [| reflexivity].
  destruct (ok response); simpl; [| reflexivity].
  destruct (json response) as [[| | | body | |] | e]; simpl; try reflexivity.
  destruct (resp_valid body); reflexivity.
Qed.

(** [getReputation] catches what [verifyAgent] throws: it always resolves. *)
Lemma getReputation_never_throws (agentId : string) (w : World) :
  exists result w',
    getReputation registryUrl fetch agentId w = (Resolved result, w').
Proof.
  unfold getReputation. unfold_client. simpl.
  destruct (agentFile w) as [a |]; [| eexists; eexists; reflexivity].
  destruct (attestationFile w) as [att |]; [| eexists; eexists; reflexivity].
  destruct (fetch _ _) as [response | e]; simpl; [| eexists; eexists; reflexivity].
  destruct (ok response); simpl; [| eexists; eexists; reflexivity].
  destruct (json response) as [body | e]; simpl; [| eexists; eexists; reflexivity].
  destruct (verify_of body) as [data | e]; simpl; [| eexists; eexists; reflexivity].
  destruct (resp_valid data); simpl; eexists; eexists; reflexivity.
Qed.

End ClientFacts.

(** *** The theorems at work *)

Import Scenario.

(** C8 (witness): a profile registered earlier, a registry that refuses the
    new registration.  The call fails, the keychain holds the key just drawn
    (no longer the one of the stored identity), the stored identity is the
    earlier one. *)
Lemma registerAgent_failure_keeps_new_key_witness :
  fst (register_with registry_refusing registered)
    = Rejected (Error "Wallet already registered")
  /\ keychain registered = Some "0707"
  /\ keychain (snd (register_with registry_refusing registered))
     = Some (toHex (counting_keys 7))
  /\ agentFile (snd (register_with registry_refusing registered)) = Some earlier_agent
  /\ attestationFile (snd (register_with registry_refusing registered)) = None
  /\ exists requests,
       trace (snd (register_with registry_refusing registered))
       = KeychainSave (toHex (counting_keys 7)) :: map Fetch requests.
Proof.
  split; [reflexivity | split; [reflexivity |]].
  destruct (registerAgent_failure_keeps_new_key registry_url counting_keys toy_public_key
              toy_base64 registry_refusing toy_sign new_year toy_number_text
              "0xAbC123" "0xwalletkey" "Clawd Agent" registered
              (snd (register_with registry_refusing registered))
              (Rejected (Error "Wallet already registered")) eq_refl)
    as (Hkey & _ & Hfailed).
  split; [exact Hkey |].
  exact (Hfailed eq_refl).
Defined.

Example offline_registration_overwrites_key :
  fst (register_with offline registered) = Rejected (TypeError "fetch failed")
  /\ keychain (snd (register_with offline registered)) = Some (toHex (counting_keys 7))
  /\ agentFile (snd (register_with offline registered)) = Some earlier_agent.
Proof. repeat split. Qed.

(** C7 (witness): the registry answers 409 with a detail. *)
Lemma registerAgent_refused_witness :
  register_with registry_refusing fresh
  = (Rejected (Error "Wallet already registered"),
     {| keychain := Some (toHex (counting_keys 0));
        agentFile := None;
        attestationFile := None;
        drawn := 1;
        trace :=
          [KeychainSave (toHex (counting_keys 0));
           Fetch (challengeRequest registry_url "0xAbC123");
           Fetch (registerRequest registry_url "0xAbC123" "Clawd Agent" "00000000"
                    "signed:Sign in as eip155:8453:0xabc123"
                    "Sign in as eip155:8453:0xabc123")] |}).
Proof.
  exact (registerAgent_refused registry_url counting_keys toy_public_key toy_base64
           registry_refusing toy_sign new_year toy_number_text
           "0xAbC123" "0xwalletkey" "Clawd Agent" fresh
           {| ok := true; statusText := "OK";
              json := Resolved (JChallenge "nonce-1" "Sign in as eip155:8453:0xabc123") |}
           "nonce-1" "Sign in as eip155:8453:0xabc123"
           "signed:Sign in as eip155:8453:0xabc123"
           {| ok := false; statusText := "Conflict";
              json := Resolved (JError (Some (VString "Wallet already registered"))) |}
           eq_refl eq_refl eq_refl eq_refl eq_refl eq_refl).
Defined.

(** Without a detail the message falls back to the status text. *)
Example registration_fallback_message :
  fst (register_with registry_broken fresh)
  = Rejected (Error "Registration failed: Internal Server Error").
Proof. reflexivity. Qed.



(** C7 (counterexample): the message is not always the registry's detail,
    nor the status text.  A 422 whose detail is a list of validation errors
    gives the message ["[object Object]"], and a 500 with an HTML page gives
    ["Registration failed: Internal Server Error"]. *)
Lemma registerAgent_refused_messages :
  fst (register_with registry_unprocessable fresh) = Rejected (Error "[object Object]")
  /\ fst (register_with registry_broken fresh)
     = Rejected (Error "Registration failed: Internal Server Error")
  /\ statusText {| ok := false; statusText := "Internal Server Error";
                   json := Rejected (SyntaxError "Unexpected token <") |}
     <> "Registration failed: Internal Server Error".
Proof. split; [reflexivity | split; [reflexivity | discriminate]]. Qed.

(** A refusal whose body is [null]: reading [detail] throws. *)
Example registration_refused_with_null :
  fst (register_with registry_null_refusal fresh) = Rejected (reading_null "detail").
Proof. reflexivity. Qed.


(** A refused completion whose detail is a list: the result carries the list. *)
Example completion_refused_with_error_list :
  fst (complete_with registry_unprocessable fresh) = Resolved (failed field_required).
Proof. reflexivity. Qed.

(** A 2xx verification answer whose body is [null]: [verifyAgent] throws. *)
Example verifyAgent_throws_on_null :
  fst (verify_with registry_null fresh) = Rejected (reading_null "valid").
Proof. reflexivity. Qed.

(** C5 (witness): an accepted completion with well-ordered timestamps. *)
Lemma completeVerificationDemo_stores_timestamps_verbatim_witness :
  fst (complete_with registry_up fresh) = Resolved (verified "agent-00000000" kyc 50%float)
  /\ exists stored,
       attestationFile (snd (complete_with registry_up fresh)) = Some stored
       /\ issuedAt stored = "2026-01-01T00:00:00Z"
       /\ expiresAt stored = "2027-01-01T00:00:00Z".
Proof.
  exact (completeVerificationDemo_stores_timestamps_verbatim registry_url registry_up
           "agent-00000000" kyc fresh
           {| level := kyc; attestation_jwt := "eyJ.kyc.sig";
              issued_at := "2026-01-01T00:00:00Z";
              expires_at := "2027-01-01T00:00:00Z" |}
           eq_refl).
Defined.

(** C5 (counterexample): the registry answers 2xx with an attestation that
    expires before it was issued.  The client reports [verified] and the
    attestation is in the credential store, although [expiresAt > issuedAt]
    fails (ISO-8601 timestamps in one format are ordered as strings). *)
Lemma completeVerificationDemo_stores_backdated_attestation :
  fst (complete_with registry_backdated fresh)
    = Resolved (verified "agent-00000000" kyc 50%float)
  /\ attestationFile (snd (complete_with registry_backdated fresh))
     = Some {| identityLevel := kyc; attestationJwt := "eyJ.kyc.sig";
               issuedAt := "2026-06-01T00:00:00Z";
               expiresAt := "2026-01-01T00:00:00Z";
               issuer := registry_url |}
  /\ String.ltb "2026-06-01T00:00:00Z" "2026-01-01T00:00:00Z" = false
  /\ String.ltb "2026-01-01T00:00:00Z" "2026-06-01T00:00:00Z" = true.
Proof. repeat split. Qed.

(** Scenario A of the specification, second half, and a refused completion. *)
Example completion_accepted :
  attestationFile (snd (complete_with registry_up fresh))
  = Some {| identityLevel := kyc; attestationJwt := "eyJ.kyc.sig";
            issuedAt := "2026-01-01T00:00:00Z"; expiresAt := "2027-01-01T00:00:00Z";
            issuer := registry_url |}.
Proof. reflexivity. Qed.

Example completion_refused :
  fst (complete_with registry_refusing fresh) = Resolved (failed "Agent not found")
  /\ attestationFile (snd (complete_with registry_refusing fresh)) = None
  /\ trace (snd (complete_with registry_refusing fresh))
     = [Fetch (verifyDemoRequest registry_url "agent-00000000" kyc)].
Proof. repeat split. Qed.

(** C3 (counterexample): with the network down, [fetch] rejects and
    [verifyAgent] rejects with it: no [{valid: false}] is returned. *)
Lemma verifyAgent_throws_when_offline :
  fst (verify_with offline fresh) = Rejected (TypeError "fetch failed").
Proof. reflexivity. Qed.

Example verifyAgent_non_2xx :
  fst (verify_with registry_refusing fresh)
  = Resolved {| valid := false; ver_identityLevel := None; ver_reputationScore := None;
                ver_error := Some "Verification failed: Service Unavailable" |}.
Proof. reflexivity. Qed.

Example getReputation_offline :
  fst (getReputation registry_url offline "agent-00000000"
         (snd (complete_with registry_up (snd (register_with registry_up fresh)))))
  = Resolved None.
Proof. reflexivity. Qed.

End TAPRegistryFacts.

(* ===================================================================== *)
(** ** Properties of the balance checker *)
(* ===================================================================== *)

Module BalanceCheckerFacts.

Import BalanceChecker.

Section Facts.

Variable balanceOf : list Call -> string -> Promise Z.
Variable decimalsOf : list Call -> Promise Z.
Variable symbolOf : list Call -> Promise string.
Variable formatUnits : Z -> Z -> Promise string.
Variable parseFloat : string -> number.

Let fetched := getBalance balanceOf decimalsOf symbolOf formatUnits.
Let sufficient := hasSufficientBalance balanceOf decimalsOf symbolOf formatUnits parseFloat.

(** [hasSufficientBalance] is [getBalance] followed by the comparison, with
    every rejection turned into [false]. *)
Lemma hasSufficientBalance_by_cases (address : string) (requiredAmount : number)
    (calls : list Call) :
  fst (sufficient address requiredAmount calls)
  = match fst (fetched address calls) with
    | Resolved info => Resolved (geb (parseFloat (balance info)) requiredAmount)
    | Rejected _ => Resolved false
    end.
Proof.
  unfold sufficient, hasSufficientBalance, try_catch, bind, ret.
  destruct (fetched address calls) as [[info | e] calls'] eqn:H;
    unfold fetched in H; rewrite H; reflexivity.
Qed.

(** A failed fetch is reported by [getBalance] as an [Error] that wraps the
    cause. *)
Lemma getBalance_rejects_with_wrapped_cause (address : string) (calls : list Call) (e : Exn) :
  fst (fetched address calls) = Rejected e ->
  exists cause, e = Error ("Failed to fetch balance: " ++ message cause).
Proof.
  unfold fetched, getBalance, try_catch, bind, call, await, ret, throw.
  destruct (balanceOf calls address) as [b | e1]; simpl;
    [| intro H; injection H as <-; eexists; reflexivity].
  destruct (decimalsOf _) as [d | e2]; simpl;
    [| intro H; injection H as <-; eexists; reflexivity].
  destruct (symbolOf _) as [sy | e3]; simpl;
    [| intro H; injection H as <-; eexists; reflexivity].
  destruct (formatUnits b d) as [f | e4]; simpl;
    [discriminate | intro H; injection H as <-; eexists; reflexivity].
Qed.

(** C10: [hasSufficientBalance] never throws: it resolves with a boolean
    that is [true] iff the balance fetch succeeds and the parsed balance is
    [>= requiredAmount], and [false] on any fetch error. *)
Theorem hasSufficientBalance_never_throws (address : string) (requiredAmount : number)
    (calls : list Call) :
  exists answer,
    fst (sufficient address requiredAmount calls) = Resolved answer
    /\ (answer = true
        <-> exists info,
              fst (fetched address calls) = Resolved info
              /\ geb (parseFloat (balance info)) requiredAmount = true)
    /\ (forall e, fst (fetched address calls) = Rejected e -> answer = false).
Proof.
  rewrite hasSufficientBalance_by_cases.
  destruct (fst (fetched address calls)) as [info | e].
  - exists (geb (parseFloat (balance info)) requiredAmount).
    split; [reflexivity | split].
    + split.
      * intro H. exists info. split; [reflexivity | exact H].
      * intros (info' & Heq & H). injection Heq as <-. exact H.
    + intros e H. discriminate.
  - exists false.
    split; [reflexivity | split].
    + split; [discriminate | intros (info & Heq & _); discriminate].
    + reflexivity.
Qed.

End Facts.

Import Scenario.
Local Open Scope float_scope.

(** 3.5 USDC on the account: enough for 2, not enough for 5. *)
Example balance_is_sufficient :
  hasSufficientBalance node_balanceOf node_decimals node_symbol toy_formatUnits
    toy_parseFloat "0xabc123" 2 []
  = (Resolved true, [BalanceOf "0xabc123"; Decimals; Symbol]).
Proof. reflexivity. Qed.

Example balance_is_insufficient :
  fst (hasSufficientBalance node_balanceOf node_decimals node_symbol toy_formatUnits
         toy_parseFloat "0xabc123" 5 [])
  = Resolved false.
Proof. reflexivity. Qed.

(** An unreachable node gives the same answer as an insufficient balance,
    while [getBalance] itself throws. *)
Example unreachable_node_reads_as_insufficient :
  fst (hasSufficientBalance unreachable_balanceOf node_decimals node_symbol
         toy_formatUnits toy_parseFloat "0xabc123" 2 [])
  = Resolved false
  /\ fst (getBalance unreachable_balanceOf node_decimals node_symbol toy_formatUnits
            "0xabc123" [])
     = Rejected (Error "Failed to fetch balance: could not detect network").
Proof. split; reflexivity. Qed.

End BalanceCheckerFacts.

(* ===================================================================== *)
(** ** Properties of the USDC transfer *)
(* ===================================================================== *)

Module BalanceCheckerTransferFacts.

Import BalanceCheckerTransfer.

(** The [catch] block only ever throws one of its four messages. *)
Lemma sanitize_cases (error : Exn) :
  In (sanitize error)
     [Error INSUFFICIENT_FUNDS; Error GAS_ISSUES; Error NONCE_CONFLICT;
      Error TRANSFER_FAILED].
Proof.
  unfold sanitize. simpl.
  destruct (includes "insufficient funds" (message error)); [left; reflexivity |].
  destruct (includes "gas" (message error)); [right; left; reflexivity |].
  destruct (includes "nonce" (message error)); [right; right; left; reflexivity |].
  right; right; right; left; reflexivity.
Qed.

Section Facts.

Variable getAddress : string -> Promise string.
Variable walletAddress : string.
Variable getEthBalance : list ChainCall -> string -> Promise Z.
Variable decimalsOf : list ChainCall -> Promise Z.
Variable toString : number -> string.
Variable parseUnits : string -> Z -> Promise Z.
Variable Tx : Type.
Variable transfer : list ChainCall -> string -> Z -> Promise Tx.
Variable wait : list ChainCall -> Tx -> Z -> Promise (option string).

Let send :=
  transferUSDC getAddress walletAddress getEthBalance decimalsOf toString parseUnits
    Tx transfer wait.
Let try_send :=
  attempt getAddress walletAddress getEthBalance decimalsOf toString parseUnits
    Tx transfer wait.

Ltac unfold_transfer :=
  unfold send, try_send, transferUSDC, attempt, call, throw, await, ret, try_catch, bind.

(** The calls the [try] block makes, and what must have held for each. *)
Lemma attempt_calls (recipient : string) (amount : number) (calls : list ChainCall) :
  exists made,
    snd (try_send recipient amount calls) = (calls ++ made)%list
    /\ (PrimFloat.leb amount 0%float = true -> made = [])
    /\ (forall to units,
          In (Transfer to units) made ->
          truthy_string recipient = true
          /\ getAddress recipient = Resolved to
          /\ to <> ZeroAddress
          /\ PrimFloat.leb amount 0%float = false
          /\ (exists wei,
                getEthBalance calls walletAddress = Resolved wei
                /\ (minGasRequired <= wei)%Z)
          /\ (exists decimals,
                decimalsOf (calls ++ [GetEthBalance walletAddress])%list = Resolved decimals
                /\ parseUnits (toString amount) decimals = Resolved units))
    /\ (forall confirmations,
          In (Wait confirmations) made -> confirmations = confirmationsFor amount)
    /\ (is_resolved (fst (try_send recipient amount calls)) = true ->
        exists to units,
          made = [GetEthBalance walletAddress; ReadDecimals; Transfer to units;
                  Wait (confirmationsFor amount)]).
Proof.
  unfold_transfer.
  destruct (truthy_string recipient) eqn:Hrecipient; simpl;
    [| exists []; rewrite app_nil_r; repeat split; try discriminate; intros; contradiction].
  destruct (getAddress recipient) as [to |] eqn:Hto; simpl;
    [| exists []; rewrite app_nil_r; repeat split; try discriminate; intros; contradiction].
  destruct (String.eqb to ZeroAddress) eqn:Hzero; simpl;
    [exists []; rewrite app_nil_r; repeat split; try discriminate; intros; contradiction |].
  apply String.eqb_neq in Hzero.
  destruct (PrimFloat.leb amount 0%float) eqn:Hamount; simpl;
    [exists []; rewrite app_nil_r; repeat split; try discriminate; intros; contradiction |].
  destruct (getEthBalance calls walletAddress) as [wei |] eqn:Hwei; simpl;
    [| exists [GetEthBalance walletAddress]; repeat split; try discriminate;
       intros; simpl in *; intuition discriminate].
  destruct (wei <? minGasRequired)%Z eqn:Hgas; simpl;
    [exists [GetEthBalance walletAddress]; repeat split; try discriminate;
     intros; simpl in *; intuition discriminate |].
  apply Z.ltb_ge in Hgas.
  destruct (decimalsOf _) as [decimals |] eqn:Hdecimals; simpl;
    [| exists [GetEthBalance walletAddress; ReadDecimals]; rewrite <- app_assoc;
       repeat split; try discriminate; intros; simpl in *; intuition discriminate].
  destruct (parseUnits (toString amount) decimals) as [units |] eqn:Hunits; simpl;
    [| exists [GetEthBalance walletAddress; ReadDecimals]; rewrite <- app_assoc;
       repeat split; try discriminate; intros; simpl in *; intuition discriminate].
  assert (Hguards : forall to' units',
             In (Transfer to' units')
                [GetEthBalance walletAddress; ReadDecimals; Transfer to units;
                 Wait (confirmationsFor amount)] ->
             Resolved to = Resolved to' /\ to' <> ZeroAddress
             /\ (exists wei0, Resolved wei = Resolved wei0 /\ (minGasRequired <= wei0)%Z)
             /\ (exists decimals0,
                   Resolved decimals = Resolved decimals0
                   /\ parseUnits (toString amount) decimals0 = Resolved units')).
  { intros to' units' Hin. simpl in Hin.
    destruct Hin as [H | [H | [H | [H | []]]]]; try discriminate.
    injection H as <- <-.
    repeat split; try assumption; eauto. }
  destruct (transfer _ to units) as [tx |] eqn:Htx; simpl.
  - destruct (wait _ tx _) as [[hash |] |] eqn:Hwait; simpl;
      exists [GetEthBalance walletAddress; ReadDecimals; Transfer to units;
              Wait (confirmationsFor amount)];
      repeat rewrite <- app_assoc; simpl;
      (split; [reflexivity |]); (split; [discriminate |]);
      (split; [intros to' units' Hin; destruct (Hguards to' units' Hin) as
                 (Ha & Hb & Hc & Hd); repeat split; assumption |]);
      (split; [intros c Hin; simpl in Hin;
               destruct Hin as [H | [H | [H | [H | []]]]]; try discriminate;
               injection H as <-; reflexivity |]);
      intro Hres; try discriminate; eauto.
  - exists [GetEthBalance walletAddress; ReadDecimals; Transfer to units].
    repeat rewrite <- app_assoc; simpl.
    split; [reflexivity |]. split; [discriminate |].
    split.
    + intros to' units' Hin.
      assert (Hin' : In (Transfer to' units')
                       [GetEthBalance walletAddress; ReadDecimals; Transfer to units;
                        Wait (confirmationsFor amount)]).
      { simpl in *. intuition. }
      destruct (Hguards to' units' Hin') as (Ha & Hb & Hc & Hd).
      repeat split; assumption.
    + split; [| discriminate].
      intros c Hin. simpl in Hin. intuition discriminate.
Qed.

Lemma transferUSDC_calls (recipient : string) (amount : number) (calls : list ChainCall) :
  snd (send recipient amount calls) = snd (try_send recipient amount calls).
Proof.
  unfold send, transferUSDC, try_catch, throw. fold try_send.
  destruct (try_send recipient amount calls) as [[result | e] calls']; reflexivity.
Qed.

Lemma transferUSDC_resolves (recipient : string) (amount : number) (calls : list ChainCall)
    (result : TransferResult) :
  fst (send recipient amount calls) = Resolved result ->
  fst (try_send recipient amount calls) = Resolved result.
Proof.
  unfold send, transferUSDC, try_catch, throw. fold try_send.
  destruct (try_send recipient amount calls) as [[r | e] calls']; simpl;
    [trivial | discriminate].
Qed.

(** X1: whatever goes wrong, [transferUSDC] throws an [Error] carrying one of
    the four fixed messages of its [catch] block; no internal message (an
    RPC error, the recipient string) reaches the caller. *)
Theorem transferUSDC_errors_are_sanitized (recipient : string) (amount : number)
    (calls : list ChainCall) (e : Exn) :
  fst (send recipient amount calls) = Rejected e ->
  In e [Error INSUFFICIENT_FUNDS; Error GAS_ISSUES; Error NONCE_CONFLICT;
        Error TRANSFER_FAILED].
Proof.
  unfold send, transferUSDC, try_catch, throw. fold try_send.
  destruct (try_send recipient amount calls) as [[r | e0] calls']; simpl.
  - discriminate.
  - intro H. injection H as <-. apply sanitize_cases.
Qed.

(** X2: a [transfer] transaction is only ever submitted past every guard: to
    the checksummed form of a non-empty recipient that is not the zero
    address, for an amount that is not [<= 0], from a wallet holding at least
    0.0001 ETH, and for the number of units [parseUnits] computed. *)
Theorem transferUSDC_transfers_only_past_the_guards (recipient : string) (amount : number)
    (calls : list ChainCall) :
  exists made,
    snd (send recipient amount calls) = (calls ++ made)%list
    /\ forall to units,
         In (Transfer to units) made ->
         truthy_string recipient = true
         /\ getAddress recipient = Resolved to
         /\ to <> ZeroAddress
         /\ PrimFloat.leb amount 0%float = false
         /\ (exists wei,
               getEthBalance calls walletAddress = Resolved wei
               /\ (minGasRequired <= wei)%Z)
         /\ (exists decimals,
               decimalsOf (calls ++ [GetEthBalance walletAddress])%list = Resolved decimals
               /\ parseUnits (toString amount) decimals = Resolved units).
Proof.
  destruct (attempt_calls recipient amount calls) as (made & Hmade & _ & Hguards & _).
  exists made. rewrite transferUSDC_calls. split; assumption.
Qed.

(** X3: an amount [<= 0] is refused before anything leaves the process: the
    call rejects and no chain call is made. *)
Theorem transferUSDC_non_positive_amount (recipient : string) (amount : number)
    (calls : list ChainCall) :
  PrimFloat.leb amount 0%float = true ->
  snd (send recipient amount calls) = calls
  /\ exists e, fst (send recipient amount calls) = Rejected e.
Proof.
  intro Hamount. split.
  - destruct (attempt_calls recipient amount calls) as (made & Hmade & Hnone & _).
    rewrite transferUSDC_calls, Hmade, (Hnone Hamount). apply app_nil_r.
  - unfold_transfer.
    destruct (truthy_string recipient); simpl; [| eexists; reflexivity].
    destruct (getAddress recipient) as [to |]; simpl; [| eexists; reflexivity].
    destruct (String.eqb to ZeroAddress); simpl; [eexists; reflexivity |].
    rewrite Hamount. simpl. eexists; reflexivity.
Qed.

(** X4: a wallet holding less than 0.0001 ETH gets the gas message (the
    guard's own message contains "gas", which the [catch] block maps to it),
    and nothing but the balance query has been sent. *)
Theorem transferUSDC_insufficient_gas (recipient to : string) (amount : number)
    (calls : list ChainCall) (wei : Z) :
  truthy_string recipient = true ->
  getAddress recipient = Resolved to ->
  to <> ZeroAddress ->
  PrimFloat.leb amount 0%float = false ->
  getEthBalance calls walletAddress = Resolved wei ->
  (wei < minGasRequired)%Z ->
  send recipient amount calls
  = (Rejected (Error GAS_ISSUES), (calls ++ [GetEthBalance walletAddress])%list).
Proof.
  intros Hrecipient Hto Hzero Hamount Hwei Hgas.
  unfold_transfer. rewrite Hrecipient. simpl. rewrite Hto. simpl.
  apply String.eqb_neq in Hzero. rewrite Hzero. rewrite Hamount. simpl.
  rewrite Hwei. simpl.
  apply Z.ltb_lt in Hgas. rewrite Hgas. reflexivity.
Qed.

(** X5: when [transferUSDC] resolves, it has made exactly four calls in
    order: the ETH balance, the decimals, one transfer to the checksummed
    recipient, and one wait, for 2 confirmations when the amount exceeds 100
    and for 1 otherwise; the amount it reports is the requested one. *)
Theorem transferUSDC_success (recipient : string) (amount : number)
    (calls : list ChainCall) (result : TransferResult) :
  fst (send recipient amount calls) = Resolved result ->
  exists to units,
    getAddress recipient = Resolved to
    /\ snd (send recipient amount calls)
       = (calls ++ [GetEthBalance walletAddress; ReadDecimals; Transfer to units;
                    Wait (if gtb amount 100%float then 2 else 1)])%list
    /\ BalanceCheckerTransfer.amount result = toString amount.
Proof.
  intro Hsend. pose proof (transferUSDC_resolves _ _ _ _ Hsend) as Htry.
  destruct (attempt_calls recipient amount calls)
    as (made & Hmade & _ & Hguards & _ & Hall).
  rewrite Htry in Hall. destruct (Hall eq_refl) as (to & units & ->).
  exists to, units.
  destruct (Hguards to units) as (_ & Hto & _); [simpl; auto |].
  split; [exact Hto |]. split.
  - rewrite transferUSDC_calls. exact Hmade.
  - revert Htry. unfold_transfer.
    repeat match goal with
    | |- context [match ?x with _ => _ end] =>
        lazymatch x with
        | context [match _ with _ => _ end] => fail
        | _ => destruct x; simpl; try discriminate
        end
    end.
    intro H. injection H as <-. reflexivity.
Qed.

End Facts.

End BalanceCheckerTransferFacts.

(* ===================================================================== *)
(** ** Further properties of the TAP registry client *)
(* ===================================================================== *)

Module TAPRegistryMoreFacts.

Import TAP TAPRegistry.

(** *** The chain-qualified address *)






Section ClientFacts.

Variable registryUrl : string.
Variable randomPrivateKey : nat -> list Byte.byte.
Variable getPublicKey : list Byte.byte -> list Byte.byte.
Variable toBase64 : list Byte.byte -> string.
Variable fetch : list Event -> Request -> Promise Response.
Variable signMessage : string -> string -> Promise string.
Variable now : list Event -> string.
Variable numberToString : number -> string.

Let register :=
  registerAgent registryUrl randomPrivateKey getPublicKey toBase64 fetch signMessage now
    numberToString.
Let key := drawn_key randomPrivateKey.
Let public := drawn_public randomPrivateKey getPublicKey toBase64.
Let saved := key_saved randomPrivateKey.
Let complete := completeVerificationDemo registryUrl fetch.
Let verify := verifyAgent registryUrl fetch.
Let reputation := getReputation registryUrl fetch.

Ltac settle := TAPRegistryFacts.settle.
Ltac unfold_client := TAPRegistryFacts.unfold_client.

(** X7: when the registry refuses the challenge, [registerAgent] fails with
    ["Failed to get challenge: " + statusText] without reading the body, and
    the registration request is never sent: after the key save the only
    effect is the challenge request. *)
Theorem registerAgent_challenge_refused (walletAddress walletPrivateKey name : string)
    (w : World) (response : Response) :
  fetch (trace (saved w)) (challengeRequest registryUrl walletAddress) = Resolved response ->
  ok response = false ->
  register walletAddress walletPrivateKey name w
  = (Rejected (Error ("Failed to get challenge: " ++ statusText response)),
     log (Fetch (challengeRequest registryUrl walletAddress)) (saved w)).
Proof.
  unfold saved, key_saved, register. simpl. intros Hfetch Hok.
  unfold_client. simpl. unfold drawn_key in Hfetch. rewrite Hfetch, Hok. reflexivity.
Qed.

(** X8: after a successful registration the two stores agree: the keychain
    holds the private key whose public key is the one in the stored agent
    record, sent to the registry and returned to the caller; the record
    carries the ids the call returned, the CAIP-10 form of the wallet address
    and the client's registry URL. *)
Theorem registerAgent_stores_agree (walletAddress walletPrivateKey name : string)
    (w w' : World) (r : Registration) :
  register walletAddress walletPrivateKey name w = (Resolved r, w') ->
  exists privateKey stored,
    keychain w' = Some (toHex privateKey)
    /\ agentFile w' = Some stored
    /\ publicKey (identity stored) = toBase64 (getPublicKey privateKey)
    /\ publicKey (identity stored) = reg_publicKey r
    /\ agentId (identity stored) = reg_agentId r
    /\ keyId (identity stored) = reg_keyId r
    /\ TAP.walletAddress stored = caip10 walletAddress
    /\ agentRegistryUrl stored = registryUrl
    /\ exists signature siweMessage,
         In (Fetch (registerRequest registryUrl walletAddress name
                      (publicKey (identity stored)) signature siweMessage))
            (trace w').
Proof.
  intro H.
  destruct (TAPRegistryFacts.registerAgent_settled registryUrl randomPrivateKey
              getPublicKey toBase64 fetch signMessage now numberToString walletAddress
              walletPrivateKey
              name w w' (Resolved r) H)
    as (Hk & _ & _ & Hp & ts & sg & m & Ha & Ht).
  exists (drawn_key randomPrivateKey w), (stored_agent registryUrl r walletAddress name ts).
  repeat split; try assumption; try reflexivity.
  exists sg, m. rewrite Ht. simpl. apply in_or_app. right. simpl. auto.
Qed.

(** X9: [registerAgent] sends at most the challenge request and one
    registration request, and the registration request is only ever sent with
    a wallet signature over the very message the registry's challenge
    carried, for the public key just generated. *)
Theorem registerAgent_submits_signed_challenge (walletAddress walletPrivateKey name : string)
    (w : World) :
  exists sent,
    trace (snd (register walletAddress walletPrivateKey name w))
    = (trace (saved w) ++ sent)%list
    /\ (List.length (filter (fun e => match e with Fetch _ => true | _ => false end) sent)
        <= 2)%nat
    /\ forall request,
         In (Fetch request) sent ->
         request = challengeRequest registryUrl walletAddress
         \/ exists response challenge siweMessage signature,
              fetch (trace (saved w)) (challengeRequest registryUrl walletAddress)
                = Resolved response
              /\ ok response = true
              /\ json response = Resolved (JChallenge challenge siweMessage)
              /\ signMessage walletPrivateKey siweMessage = Resolved signature
              /\ request = registerRequest registryUrl walletAddress name (public w)
                             signature siweMessage.
Proof.
  destruct (register walletAddress walletPrivateKey name w) as [p w'] eqn:H.
  revert H.
  unfold register, saved, key_saved, public, drawn_public, drawn_key.
  unfold_client. simpl. intro H.
  settle; simpl; unfold sign in *;
    try match goal with
    | H : Rejected _ = Resolved _ |- _ => discriminate H
    end;
    (eexists; split;
     [repeat rewrite <- app_assoc; simpl; reflexivity
     | split; [simpl; lia |]]);
    intros request Hin; simpl in Hin;
    repeat match goal with
    | H : _ \/ _ |- _ => destruct H
    | H : False |- _ => contradiction
    | H : Fetch _ = Fetch _ |- _ => injection H as <-
    | H : SaveAgent _ = Fetch _ |- _ => discriminate H
    end;
    try (left; reflexivity);
    right;
    repeat match goal with
    | H : negb ?b = false |- _ => apply negb_false_iff in H
    | H : destructure_message ?v = Resolved (Some _) |- _ =>
        destruct v; simpl in H; try discriminate; injection H as <-
    end;
    unfold sign in *;
    do 4 eexists; repeat split; try eassumption; try reflexivity.
Qed.

(** *** Verifying and reputation *)

(** [verifyAgent] sends one request and writes nothing. *)
Lemma verifyAgent_read_only (walletAddress attestation : string) (w : World) :
  snd (verify walletAddress attestation w)
  = log (Fetch (verifyRequest registryUrl walletAddress attestation)) w.
Proof.
  unfold verify. unfold_client. simpl.
  destruct (fetch _ _) as [response | e]; simpl; [| reflexivity].
  destruct (ok response); simpl; [| reflexivity].
  destruct (json response) as [body | e]; simpl; [| reflexivity].
  destruct (verify_of body) as [data | e]; simpl; [| reflexivity].
  destruct (resp_valid data); reflexivity.
Qed.

(** X10: [verifyAgent] reports an agent as valid only on the registry's
    explicit word: a 2xx answer whose body is a verification response with
    [valid: true]; the level and score it returns are the ones of that body. *)
Theorem verifyAgent_valid_only_if_registry_says_so (walletAddress attestation : string)
    (w : World) (result : Verification) :
  fst (verify walletAddress attestation w) = Resolved result ->
  valid result = true ->
  exists response body,
    fetch (trace w) (verifyRequest registryUrl walletAddress attestation) = Resolved response
    /\ ok response = true
    /\ json response = Resolved (JVerify body)
    /\ resp_valid body = true
    /\ ver_identityLevel result = identity_level body
    /\ ver_reputationScore result = reputation_score body.
Proof.
  unfold verify. unfold_client. simpl.
  destruct (fetch _ _) as [response | e] eqn:Hfetch; simpl; [| discriminate].
  destruct (ok response) eqn:Hok; simpl;
    [| intro H; injection H as <-; discriminate].
  destruct (json response) as [body | e] eqn:Hjson; simpl; [| discriminate].
  destruct (verify_of body) as [data | e] eqn:Hdata; simpl; [| discriminate].
  destruct (resp_valid data) eqn:Hvalid; simpl;
    intro H; injection H as <-; simpl; [| discriminate].
  intros _. destruct body; simpl in Hdata; try discriminate;
    injection Hdata as <-; simpl in Hvalid; try discriminate.
  exists response, r. repeat split; assumption.
Qed.

Lemma truthy_not_nan (x : number) :
  truthy x = true -> PrimFloat.eqb x x = true.
Proof.
  unfold truthy. destruct (PrimFloat.eqb x x); [reflexivity |].
  rewrite orb_true_r. discriminate.
Qed.

Lemma score_or_zero_not_nan (s : option number) :
  PrimFloat.eqb (score_or_zero s) (score_or_zero s) = true.
Proof.
  unfold score_or_zero. destruct s as [x |]; [| reflexivity].
  destruct (truthy x) eqn:H; [apply truthy_not_nan; exact H | reflexivity].
Qed.

(** The world [getReputation] leaves: the one it found, or that world with
    one verification request logged. *)
Lemma getReputation_world (agentId : string) (w : World) :
  snd (reputation agentId w) = w
  \/ exists stored attestation,
       agentFile w = Some stored
       /\ attestationFile w = Some attestation
       /\ snd (reputation agentId w)
          = log (Fetch (verifyRequest registryUrl (TAP.walletAddress stored)
                          (attestationJwt attestation))) w.
Proof.
  unfold reputation, getReputation, try_catch, bind, loadAgent, loadAttestation, ret.
  destruct (agentFile w) as [a |] eqn:Ha; [| left; reflexivity].
  destruct (attestationFile w) as [att |] eqn:Hatt; [| left; reflexivity].
  right. exists a, att. split; [reflexivity | split; [reflexivity |]].
  fold verify.
  pose proof (verifyAgent_read_only (TAP.walletAddress a) (attestationJwt att) w) as Hw.
  destruct (verify (TAP.walletAddress a) (attestationJwt att) w) as [[result | e] w'];
    simpl in *; subst w'; [| reflexivity].
  destruct (valid result); reflexivity.
Qed.

(** X11: [getReputation] never throws and never writes: it resolves, the
    keychain, the credential store and the key counter are as before, and it
    has sent nothing, or exactly one verification request for the stored
    wallet address and attestation token. *)
Theorem getReputation_read_only (agentId : string) (w : World) :
  exists result,
    fst (reputation agentId w) = Resolved result
    /\ keychain (snd (reputation agentId w)) = keychain w
    /\ agentFile (snd (reputation agentId w)) = agentFile w
    /\ attestationFile (snd (reputation agentId w)) = attestationFile w
    /\ drawn (snd (reputation agentId w)) = drawn w
    /\ (trace (snd (reputation agentId w)) = trace w
        \/ exists stored attestation,
             agentFile w = Some stored
             /\ attestationFile w = Some attestation
             /\ trace (snd (reputation agentId w))
                = (trace w ++ [Fetch (verifyRequest registryUrl (TAP.walletAddress stored)
                                        (attestationJwt attestation))])%list).
Proof.
  destruct (TAPRegistryFacts.getReputation_never_throws registryUrl fetch agentId w)
    as (result & w' & Hrun).
  exists result. fold reputation in Hrun.
  split; [rewrite Hrun; reflexivity |].
  destruct (getReputation_world agentId w) as [Hw | (a & att & Ha & Hatt & Hw)];
    rewrite Hw; simpl.
  - repeat split; try reflexivity. left. reflexivity.
  - repeat split; try reflexivity. right. exists a, att. repeat split; assumption.
Qed.

(** X12: without a stored agent or without a stored attestation
    [getReputation] answers [null] at once: no request is sent and the world
    is unchanged. *)
Theorem getReputation_without_credentials (agentId : string) (w : World) :
  agentFile w = None \/ attestationFile w = None ->
  reputation agentId w = (Resolved None, w).
Proof.
  unfold reputation, getReputation. unfold_client. simpl.
  intros [H | H]; rewrite H; [reflexivity |].
  destruct (agentFile w); reflexivity.
Qed.

(** X13: a reputation, when [getReputation] returns one, rests on the
    registry having declared the stored attestation valid, and its score is
    never NaN (a missing, zero or NaN score is reported as 0). *)
Theorem getReputation_some (agentId : string) (w : World) (rep : Reputation) :
  fst (reputation agentId w) = Resolved (Some rep) ->
  PrimFloat.eqb (reputationScore rep) (reputationScore rep) = true
  /\ exists stored attestation result,
       agentFile w = Some stored
       /\ attestationFile w = Some attestation
       /\ fst (verify (TAP.walletAddress stored) (attestationJwt attestation) w)
          = Resolved result
       /\ valid result = true
       /\ reputationScore rep = score_or_zero (ver_reputationScore result).
Proof.
  unfold reputation, getReputation, try_catch, bind, loadAgent, loadAttestation, ret.
  destruct (agentFile w) as [a |] eqn:Ha; [| discriminate].
  destruct (attestationFile w) as [att |] eqn:Hatt; [| discriminate].
  fold verify.
  destruct (verify (TAP.walletAddress a) (attestationJwt att) w)
    as [[result | e] w'] eqn:Hverify; simpl; [| discriminate].
  destruct (valid result) eqn:Hvalid; simpl; [| discriminate].
  intro H. injection H as <-. simpl.
  split; [apply score_or_zero_not_nan |].
  exists a, att, result. repeat split; try assumption.
  rewrite Hverify. reflexivity.
Qed.

(** *** Completing a verification *)

(** What is not accepted is never reported as verified. *)
Lemma completeVerificationDemo_not_accepted_not_verified (agentId : string)
    (level : TAPIdentityLevel) (w : World) (reported : string)
    (issued : TAPIdentityLevel) (score : number) :
  accepted (fetch (trace w) (verifyDemoRequest registryUrl agentId level)) = None ->
  fst (complete agentId level w) <> Resolved (verified reported issued score).
Proof.
  unfold complete, accepted. unfold_client.
  destruct (fetch _ _) as [response | e]; simpl; [| discriminate].
  destruct (ok response); simpl;
    [| destruct (error_detail response); simpl; discriminate].
  destruct (json response) as [[] | e]; simpl; discriminate.
Qed.

(** X14: whatever its outcome, [completeVerificationDemo] leaves the keychain
    and the agent record alone; and when it reports [verified], it is for the
    agent id it was called with, with the baseline score 50, and the stored
    attestation carries the reported level and the client's registry URL as
    issuer. *)
Theorem completeVerificationDemo_result_matches_store (agentId : string)
    (level : TAPIdentityLevel) (w w' : World) (outcome : Promise TAPVerificationResult) :
  complete agentId level w = (outcome, w') ->
  keychain w' = keychain w
  /\ agentFile w' = agentFile w
  /\ drawn w' = drawn w
  /\ forall reported issued score,
       outcome = Resolved (verified reported issued score) ->
       reported = agentId
       /\ score = 50%float
       /\ exists attestation,
            attestationFile w' = Some attestation
            /\ identityLevel attestation = issued
            /\ issuer attestation = registryUrl.
Proof.
  intro Hrun.
  destruct (accepted (fetch (trace w) (verifyDemoRequest registryUrl agentId level)))
    as [r |] eqn:Haccepted.
  - pose proof (TAPRegistryFacts.completeVerificationDemo_accepted registryUrl fetch
                  agentId level w r Haccepted) as Hacc.
    fold complete in Hacc. rewrite Hrun in Hacc. injection Hacc as -> ->. simpl.
    repeat split; try congruence.
    exists (attestation_of registryUrl r). repeat split. simpl. congruence.
  - pose proof (TAPRegistryFacts.completeVerificationDemo_not_accepted registryUrl fetch
                  agentId level w Haccepted) as Hw.
    fold complete in Hw. rewrite Hrun in Hw. simpl in Hw. subst w'. simpl.
    split; [reflexivity | split; [reflexivity | split; [reflexivity |]]].
    intros reported issued score Hout. exfalso.
    apply (completeVerificationDemo_not_accepted_not_verified agentId level w
             reported issued score Haccepted).
    rewrite Hrun. exact Hout.
Qed.

End ClientFacts.

End TAPRegistryMoreFacts.

(* ===================================================================== *)
(** ** Further properties of the tools and of the balance checker *)
(* ===================================================================== *)

Module BalanceCheckerMoreFacts.

Import BalanceChecker.

Section Facts.

Variable balanceOf : list Call -> string -> Promise Z.
Variable decimalsOf : list Call -> Promise Z.
Variable symbolOf : list Call -> Promise string.
Variable formatUnits : Z -> Z -> Promise string.

Let fetched := getBalance balanceOf decimalsOf symbolOf formatUnits.

(** X15: [getBalance] queries the contract in a fixed order and stops at the
    first failure: the calls it makes are a prefix of [balanceOf(address)],
    [decimals], [symbol]; when it resolves it has made all three, the info
    carries the queried address, and its balance is [formatUnits] of the raw
    balance at the contract's decimals. *)
Theorem getBalance_call_order (address : string) (calls : list Call) :
  exists made rest,
    snd (fetched address calls) = (calls ++ made)%list
    /\ (made ++ rest)%list = [BalanceOf address; Decimals; Symbol]
    /\ made <> []
    /\ forall info,
         fst (fetched address calls) = Resolved info ->
         rest = []
         /\ BalanceChecker.address info = address
         /\ exists raw,
              balanceOf calls address = Resolved raw
              /\ formatUnits raw (decimals info) = Resolved (balance info).
Proof.
  unfold fetched, getBalance, try_catch, bind, call, await, ret, throw.
  destruct (balanceOf calls address) as [raw | e1] eqn:Hraw; simpl.
  2: { exists [BalanceOf address], [Decimals; Symbol].
       repeat split; try discriminate. }
  destruct (decimalsOf _) as [d | e2]; simpl.
  2: { exists [BalanceOf address; Decimals], [Symbol].
       rewrite <- app_assoc. repeat split; try discriminate. }
  destruct (symbolOf _) as [sy | e3]; simpl.
  2: { exists [BalanceOf address; Decimals; Symbol], [].
       repeat rewrite <- app_assoc. repeat split; try discriminate. }
  exists [BalanceOf address; Decimals; Symbol], [].
  repeat rewrite <- app_assoc.
  destruct (formatUnits raw d) as [f | e4] eqn:Hformat; simpl;
    repeat split; try discriminate;
    injection H as <-; simpl; try reflexivity.
  exists raw. split; [reflexivity | exact Hformat].
Qed.

End Facts.

End BalanceCheckerMoreFacts.

Module MCPWalletFacts.

Import BalanceChecker MCPWallet.

Section Facts.

Variable loadConfig : Promise unit.
Variable loadFromKeychain : Promise unit.
Variable walletAddress : string.
Variable balanceOf : list Call -> string -> Promise Z.
Variable decimalsOf : list Call -> Promise Z.
Variable symbolOf : list Call -> Promise string.
Variable formatUnits : Z -> Z -> Promise string.

Let check :=
  checkBalance loadConfig loadFromKeychain walletAddress balanceOf decimalsOf symbolOf
    formatUnits.

(** X16: [checkBalance] never throws; it queries the contract only once the
    configuration and the wallet have loaded; and a failure it reports after
    that is the balance checker's wrapped message. *)
Theorem checkBalance_settles (calls : list Call) :
  exists result,
    fst (check calls) = Resolved result
    /\ (is_resolved loadConfig && is_resolved loadFromKeychain = false ->
        snd (check calls) = calls
        /\ exists error, result = BalanceFailure error)
    /\ (is_resolved loadConfig && is_resolved loadFromKeychain = true ->
        snd (check calls)
        = snd (getBalance balanceOf decimalsOf symbolOf formatUnits walletAddress calls)
        /\ forall error,
             result = BalanceFailure error ->
             exists cause, error = "Failed to fetch balance: " ++ message cause).
Proof.
  unfold check, checkBalance, try_catch, bind, await, ret.
  destruct loadConfig as [[] | e1]; simpl.
  2: { eexists. split; [reflexivity |]. split; [| discriminate].
       intros _. split; [reflexivity | eexists; reflexivity]. }
  destruct loadFromKeychain as [[] | e2]; simpl.
  2: { eexists. split; [reflexivity |]. split; [| discriminate].
       intros _. split; [reflexivity | eexists; reflexivity]. }
  destruct (getBalance balanceOf decimalsOf symbolOf formatUnits walletAddress calls)
    as [[info | e] calls'] eqn:Hget; simpl.
  - eexists. split; [reflexivity |]. split; [discriminate |].
    intros _. split; [reflexivity |]. intros error H. discriminate.
  - eexists. split; [reflexivity |]. split; [discriminate |].
    intros _. split; [reflexivity |]. intros error H. injection H as <-.
    destruct (BalanceCheckerFacts.getBalance_rejects_with_wrapped_cause balanceOf
                decimalsOf symbolOf formatUnits walletAddress calls e) as (cause & ->).
    + rewrite Hget. reflexivity.
    + exists cause. reflexivity.
Qed.

End Facts.

End MCPWalletFacts.

Module MCPToolsMoreFacts.

Import SpendLimits MCPTools.

Section Facts.

Variable validateTransaction : number -> Promise ValidationResult.
Variable PaymentResult : Type.
Variable initialize : Promise unit.
Variable executePayment : string -> string -> option string -> string -> Promise PaymentResult.

Let run := paymentRequest validateTransaction PaymentResult initialize executePayment.

(** X17: [paymentRequest] never throws, and it executes at most one payment,
    the one of the request, and only after the handler has initialized and
    the declared maximum has either been skipped as falsy or has passed
    validation. *)
Theorem paymentRequest_pays_once_when_allowed (args : PaymentRequest) (log : list Effect) :
  exists result made,
    run args log = (Resolved result, (log ++ made)%list)
    /\ (List.length
          (filter (fun e => match e with ExecutePayment _ _ _ _ => true | _ => false end)
             made) <= 1)%nat
    /\ forall u m b d,
         In (ExecutePayment u m b d) made ->
         (u, m, b, d) = (url args, method args, body args, description args)
         /\ initialize = Resolved tt
         /\ (truthy_opt (maxAmount args) = false
             \/ exists a validation,
                  maxAmount args = Some a
                  /\ validateTransaction a = Resolved validation
                  /\ valid validation = true).
Proof.
  unfold run, paymentRequest, execute, try_catch, bind, emit, modify, await, ret.
  destruct (maxAmount args) as [a |] eqn:Hmax; simpl;
    [destruct (truthy a) eqn:Htruthy; simpl;
     [destruct (validateTransaction a) as [v | e] eqn:Hval; simpl;
      [destruct (valid v) eqn:Hvalid; simpl |] |] |];
    try (destruct initialize as [[] | e0] eqn:Hinit; simpl;
         [destruct (executePayment _ _ _ _) as [r | e1]; simpl |]);
    do 2 eexists;
    (split; [repeat rewrite <- app_assoc; simpl; reflexivity |]);
    (split; [simpl; lia |]);
    intros u m b d Hin; simpl in Hin;
    repeat match goal with
    | H : _ \/ _ |- _ => destruct H
    | H : False |- _ => contradiction
    | H : _ = ExecutePayment _ _ _ _ |- _ => first [discriminate H | injection H as <- <- <- <-]
    end;
    (split; [reflexivity | split; [reflexivity |]]);
    first [left; reflexivity | right; exists a, v; repeat split; assumption].
Qed.

End Facts.

End MCPToolsMoreFacts.

Module MCPIdentityFacts.

Import TAP TAPRegistry MCPIdentity.

Lemma promise_cases {A : Type} (p : Promise A) :
  (exists a, p = Resolved a) \/ (exists e, p = Rejected e).
Proof. destruct p as [a | e]; [left; exists a | right; exists e]; reflexivity. Qed.

Section Facts.

Variable DEFAULT_REGISTRY_URL : string.
Variable randomPrivateKey : nat -> list Byte.byte.
Variable getPublicKey : list Byte.byte -> list Byte.byte.
Variable toBase64 : list Byte.byte -> string.
Variable fetch : list Event -> Request -> Promise Response.
Variable signMessage : string -> string -> Promise string.
Variable now : list Event -> string.
Variable numberToString : number -> string.
Variable loadFromKeychain : Promise unit.
Variable walletAddress : string.
Variable exportPrivateKey : Promise string.
Variable isVerified : World -> Promise bool.
Variable getStatus : World -> Promise TAPStatus.

Let identify :=
  verifyIdentity DEFAULT_REGISTRY_URL randomPrivateKey getPublicKey toBase64 fetch
    signMessage now numberToString loadFromKeychain walletAddress exportPrivateKey
    isVerified getStatus.
Let status := getTapStatus DEFAULT_REGISTRY_URL fetch getStatus.
Let register :=
  registerAgent (registryUrlOf DEFAULT_REGISTRY_URL None) randomPrivateKey getPublicKey
    toBase64 fetch signMessage now numberToString.
Let complete := completeVerificationDemo (registryUrlOf DEFAULT_REGISTRY_URL None) fetch.

(** The agent name [verifyIdentity] registers under. *)
Let name_of (args : VerifyArgs) : string :=
  or_else (arg_name args) ("Clawd Agent (" ++ slice0 8 walletAddress ++ ")").

(** [verifyIdentity] once the wallet is loaded and the profile is found
    unverified: registration, then completion. *)
Lemma verifyIdentity_unverified (args : VerifyArgs) (w : World) (privateKey : string) :
  loadFromKeychain = Resolved tt ->
  exportPrivateKey = Resolved privateKey ->
  isVerified w = Resolved false ->
  identify args w
  = match register walletAddress privateKey (name_of args) w with
    | (Rejected e, w1) => (Resolved (IdentityFailure (message e)), w1)
    | (Resolved registration, w1) =>
        match complete (reg_agentId registration) (level_or_kyc (arg_level args)) w1 with
        | (Rejected e, w2) => (Resolved (IdentityFailure (message e)), w2)
        | (Resolved (failed error), w2) =>
            (Resolved (IdentityFailure (or_fallback (Some error) "Verification failed")), w2)
        | (Resolved (verified _ _ score), w2) =>
            (Resolved
               (NowVerified (reg_agentId registration) (level_or_kyc (arg_level args)) score
                  ("Identity verified at "
                   ++ toUpperCase (level_string (level_or_kyc (arg_level args)))
                   ++ " level. Premium merchants will now accept your payments.")),
             w2)
        end
    end.
Proof.
  intros Hload Hexport Hverified.
  unfold identify, verifyIdentity, try_catch, bind, await, ret, reading_store.
  rewrite Hload, Hexport, Hverified.
  fold register. fold complete. unfold name_of.
  destruct (register walletAddress privateKey _ w) as [[registration | e] w1];
    [| reflexivity].
  destruct (complete (reg_agentId registration) _ w1) as [[[error | a l s] | e] w2];
    reflexivity.
Qed.

(** X18: [verifyIdentity] never throws, and it leaves the keychain, the
    credential store and the network alone unless the wallet loaded, its key
    was exported and the profile was found not yet verified: an already
    verified profile is never re-registered. *)
Theorem verifyIdentity_acts_only_when_unverified (args : VerifyArgs) (w : World) :
  exists result,
    fst (identify args w) = Resolved result
    /\ (snd (identify args w) = w
        \/ (loadFromKeychain = Resolved tt
            /\ (exists privateKey, exportPrivateKey = Resolved privateKey)
            /\ isVerified w = Resolved false)).
Proof.
  destruct (promise_cases loadFromKeychain) as [[[] Hload] | [e1 Hload]].
  2: { unfold identify, verifyIdentity, try_catch, bind, await, ret. rewrite Hload.
       eexists. split; [reflexivity | left; reflexivity]. }
  destruct (promise_cases exportPrivateKey) as [[privateKey Hexport] | [e2 Hexport]].
  2: { unfold identify, verifyIdentity, try_catch, bind, await, ret.
       rewrite Hload, Hexport. eexists. split; [reflexivity | left; reflexivity]. }
  destruct (isVerified w) as [[] | e3] eqn:Hverified.
  - unfold identify, verifyIdentity, try_catch, bind, await, ret, reading_store.
    rewrite Hload, Hexport, Hverified.
    destruct (getStatus w); eexists; (split; [reflexivity | left; reflexivity]).
  - rewrite (verifyIdentity_unverified args w privateKey Hload Hexport Hverified).
    destruct (register walletAddress privateKey _ w) as [[registration | e] w1].
    + destruct (complete (reg_agentId registration) _ w1) as [[[error | a l s] | e] w2];
        eexists; (split; [reflexivity | right; eauto]).
    + eexists. split; [reflexivity | right; eauto].
  - unfold identify, verifyIdentity, try_catch, bind, await, ret, reading_store.
    rewrite Hload, Hexport, Hverified.
    eexists. split; [reflexivity | left; reflexivity].
Qed.

(** A fresh verification comes from the unverified path, with both steps
    succeeding. *)
Lemma verifyIdentity_now_verified_inv (args : VerifyArgs) (w : World)
    (agent : string) (level : TAPIdentityLevel) (score : number) (text : string) :
  fst (identify args w) = Resolved (NowVerified agent level score text) ->
  exists privateKey registration w1 reported issued,
    isVerified w = Resolved false
    /\ register walletAddress privateKey (name_of args) w = (Resolved registration, w1)
    /\ complete (reg_agentId registration) (level_or_kyc (arg_level args)) w1
       = (Resolved (verified reported issued score), snd (identify args w))
    /\ agent = reg_agentId registration
    /\ level = level_or_kyc (arg_level args).
Proof.
  destruct (promise_cases loadFromKeychain) as [[[] Hload] | [e1 Hload]].
  2: { unfold identify, verifyIdentity, try_catch, bind, await, ret. rewrite Hload.
       discriminate. }
  destruct (promise_cases exportPrivateKey) as [[privateKey Hexport] | [e2 Hexport]].
  2: { unfold identify, verifyIdentity, try_catch, bind, await, ret.
       rewrite Hload, Hexport. discriminate. }
  destruct (isVerified w) as [[] | e3] eqn:Hverified.
  - unfold identify, verifyIdentity, try_catch, bind, await, ret, reading_store.
    rewrite Hload, Hexport, Hverified.
    destruct (getStatus w); discriminate.
  - rewrite (verifyIdentity_unverified args w privateKey Hload Hexport Hverified).
    destruct (register walletAddress privateKey _ w) as [[registration | e] w1] eqn:Hreg;
      [| discriminate].
    destruct (complete (reg_agentId registration) _ w1)
      as [[[error | reported issued s] | e] w2] eqn:Hcomplete; simpl; try discriminate.
    intro H. injection H as <- <- <- _.
    exists privateKey, registration, w1, reported, issued. repeat split; assumption.
  - unfold identify, verifyIdentity, try_catch, bind, await, ret, reading_store.
    rewrite Hload, Hexport, Hverified. discriminate.
Qed.

(** X19: when [verifyIdentity] reports a fresh verification, the level it
    reports is the requested one ([kyc] by default), whatever level the
    registry issued; the profile was unverified before; and afterwards the
    keychain holds the newly drawn key, the agent record is the reported
    agent, and an attestation issued by the default registry is stored. *)
Theorem verifyIdentity_now_verified (args : VerifyArgs) (w : World)
    (agent : string) (level : TAPIdentityLevel) (score : number) (text : string) :
  fst (identify args w) = Resolved (NowVerified agent level score text) ->
  level = level_or_kyc (arg_level args)
  /\ isVerified w = Resolved false
  /\ keychain (snd (identify args w)) = Some (toHex (drawn_key randomPrivateKey w))
  /\ (exists stored,
        agentFile (snd (identify args w)) = Some stored
        /\ agentId (identity stored) = agent
        /\ TAP.walletAddress stored = caip10 walletAddress)
  /\ exists attestation,
       attestationFile (snd (identify args w)) = Some attestation
       /\ issuer attestation = registryUrlOf DEFAULT_REGISTRY_URL None.
Proof.
  intro Hrun.
  destruct (verifyIdentity_now_verified_inv args w agent level score text Hrun)
    as (privateKey & registration & w1 & reported & issued
        & Hverified & Hreg & Hcomplete & -> & ->).
  destruct (TAPRegistryFacts.registerAgent_settled
              (registryUrlOf DEFAULT_REGISTRY_URL None) randomPrivateKey getPublicKey
              toBase64 fetch signMessage now numberToString walletAddress privateKey
              (name_of args)
              w w1 (Resolved registration) Hreg)
    as (Hkey & _ & _ & _ & ts & _ & _ & Hagent & _).
  destruct (accepted (fetch (trace w1)
                        (verifyDemoRequest (registryUrlOf DEFAULT_REGISTRY_URL None)
                           (reg_agentId registration) (level_or_kyc (arg_level args)))))
    as [r |] eqn:Haccepted.
  - pose proof (TAPRegistryFacts.completeVerificationDemo_accepted
                  (registryUrlOf DEFAULT_REGISTRY_URL None) fetch
                  (reg_agentId registration) (level_or_kyc (arg_level args)) w1 r
                  Haccepted) as Hacc.
    fold complete in Hacc. rewrite Hcomplete in Hacc.
    injection Hacc as _ _ _ Hworld. rewrite Hworld. simpl.
    split; [reflexivity | split; [exact Hverified | split; [exact Hkey | split]]].
    + eexists. split; [exact Hagent | split; reflexivity].
    + eexists. split; reflexivity.
  - exfalso.
    apply (TAPRegistryMoreFacts.completeVerificationDemo_not_accepted_not_verified
             (registryUrlOf DEFAULT_REGISTRY_URL None) fetch
             (reg_agentId registration) (level_or_kyc (arg_level args)) w1
             reported issued score Haccepted).
    fold complete. rewrite Hcomplete. reflexivity.
Qed.

(** *** The status tool *)

(** X20: [getTapStatus] never throws and never writes: the keychain and the
    credential store are as before, and it contacts the registry (one
    verification request at most) only for a status that is verified and
    carries a non-empty agent id. *)
Theorem getTapStatus_read_only (w : World) :
  exists result,
    fst (status w) = Resolved result
    /\ keychain (snd (status w)) = keychain w
    /\ agentFile (snd (status w)) = agentFile w
    /\ attestationFile (snd (status w)) = attestationFile w
    /\ (trace (snd (status w)) = trace w
        \/ exists found request,
             getStatus w = Resolved found
             /\ status_verified found = true
             /\ truthy_opt_string (status_agentId found) = true
             /\ trace (snd (status w)) = (trace w ++ [Fetch request])%list).
Proof.
  unfold status, getTapStatus, try_catch, bind, ret, reading_store.
  destruct (getStatus w) as [found | e] eqn:Hstatus; simpl;
    [| eexists; repeat split; left; reflexivity].
  destruct (status_verified found) eqn:Hv; simpl.
  - destruct (truthy_opt_string (status_agentId found)) eqn:Hid; simpl.
    + destruct (TAPRegistryFacts.getReputation_never_throws
                  (registryUrlOf DEFAULT_REGISTRY_URL (status_registryUrl found)) fetch
                  (match status_agentId found with Some a => a | None => "" end) w)
        as (rep & w' & Hrun).
      pose proof (TAPRegistryMoreFacts.getReputation_world
                    (registryUrlOf DEFAULT_REGISTRY_URL (status_registryUrl found)) fetch
                    (match status_agentId found with Some a => a | None => "" end) w)
        as Hworld.
      rewrite Hrun in *. simpl in *.
      eexists. split; [reflexivity |].
      destruct Hworld as [-> | (a & att & _ & _ & ->)]; simpl.
      * repeat split. left. reflexivity.
      * repeat split. right. exists found. eexists. repeat split; assumption.
    + eexists. repeat split. left. reflexivity.
  - destruct (truthy_opt_string (status_agentId found)); simpl;
      eexists; repeat split; left; reflexivity.
Qed.

End Facts.

End MCPIdentityFacts.

(* ===================================================================== *)
(** ** The further properties at work *)
(* ===================================================================== *)

Module MoreExamples.

Import TAP TAPRegistry Scenario.
Local Open Scope float_scope.

(** *** Transfers *)

(** X1 (witness): an empty recipient is reported with the generic message. *)
Lemma transferUSDC_errors_are_sanitized_witness :
  fst (transfer_with funded_eth "" 5 []) = Rejected (Error BalanceCheckerTransfer.TRANSFER_FAILED)
  /\ In (Error BalanceCheckerTransfer.TRANSFER_FAILED)
        [Error BalanceCheckerTransfer.INSUFFICIENT_FUNDS;
         Error BalanceCheckerTransfer.GAS_ISSUES;
         Error BalanceCheckerTransfer.NONCE_CONFLICT;
         Error BalanceCheckerTransfer.TRANSFER_FAILED].
Proof.
  split; [reflexivity |].
  exact (BalanceCheckerTransferFacts.transferUSDC_errors_are_sanitized
           toy_getAddress "0xwallet" funded_eth six_decimals toy_toString toy_parseUnits
           nat accept_transfer confirm "" 5 []
           (Error BalanceCheckerTransfer.TRANSFER_FAILED) eq_refl).
Defined.


(** X3 (witness): a transfer of 0 to a good address. *)
Lemma transferUSDC_non_positive_amount_witness :
  PrimFloat.leb 0 0 = true
  /\ snd (transfer_with funded_eth merchant 0 []) = []
  /\ exists e, fst (transfer_with funded_eth merchant 0 []) = Rejected e.
Proof.
  split; [reflexivity |].
  exact (BalanceCheckerTransferFacts.transferUSDC_non_positive_amount
           toy_getAddress "0xwallet" funded_eth six_decimals toy_toString toy_parseUnits
           nat accept_transfer confirm merchant 0 [] eq_refl).
Defined.

(** X4 (witness): 0.00001 ETH in the wallet. *)
Lemma transferUSDC_insufficient_gas_witness :
  transfer_with dust_eth merchant 5 []
  = (Rejected (Error "Transaction failed due to gas issues. Please try again."),
     [BalanceCheckerTransfer.GetEthBalance "0xwallet"]).
Proof.
  exact (BalanceCheckerTransferFacts.transferUSDC_insufficient_gas
           toy_getAddress "0xwallet" dust_eth six_decimals toy_toString toy_parseUnits
           nat accept_transfer confirm merchant
           "0x52908400098527886E0F7030069857D2E4169EE7" 5 [] 10000000000000%Z
           eq_refl eq_refl ltac:(discriminate) eq_refl eq_refl eq_refl).
Defined.

(** X5 (witness): a transfer of 250 waits for two confirmations. *)
Lemma transferUSDC_success_witness :
  exists to units,
    toy_getAddress merchant = Resolved to
    /\ snd (transfer_with funded_eth merchant 250 [])
       = [BalanceCheckerTransfer.GetEthBalance "0xwallet";
          BalanceCheckerTransfer.ReadDecimals;
          BalanceCheckerTransfer.Transfer to units;
          BalanceCheckerTransfer.Wait 2]
    /\ "250"%string = toy_toString 250.
Proof.
  exact (BalanceCheckerTransferFacts.transferUSDC_success
           toy_getAddress "0xwallet" funded_eth six_decimals toy_toString toy_parseUnits
           nat accept_transfer confirm merchant 250 []
           {| BalanceCheckerTransfer.txHash := "0xfeed";
              BalanceCheckerTransfer.amount := "250" |} eq_refl).
Defined.

Example small_transfer_waits_once :
  snd (transfer_with funded_eth merchant 5 [])
  = [BalanceCheckerTransfer.GetEthBalance "0xwallet";
     BalanceCheckerTransfer.ReadDecimals;
     BalanceCheckerTransfer.Transfer "0x52908400098527886E0F7030069857D2E4169EE7" 5000000;
     BalanceCheckerTransfer.Wait 1].
Proof. reflexivity. Qed.

Example zero_address_is_refused :
  transfer_with funded_eth BalanceCheckerTransfer.ZeroAddress 5 []
  = (Rejected (Error BalanceCheckerTransfer.TRANSFER_FAILED), []).
Proof. reflexivity. Qed.

(** *** Registration *)

(** X7 (witness): the registry answers the challenge with 429. *)
Lemma registerAgent_challenge_refused_witness :
  register_with registry_closed fresh
  = (Rejected (Error "Failed to get challenge: Too Many Requests"),
     {| keychain := Some (toHex (counting_keys 0));
        agentFile := None;
        attestationFile := None;
        drawn := 1;
        trace := [KeychainSave (toHex (counting_keys 0));
                  Fetch (challengeRequest registry_url "0xAbC123")] |}).
Proof.
  exact (TAPRegistryMoreFacts.registerAgent_challenge_refused registry_url counting_keys
           toy_public_key toy_base64 registry_closed toy_sign new_year toy_number_text
           "0xAbC123" "0xwalletkey" "Clawd Agent" fresh
           {| ok := false; statusText := "Too Many Requests";
              json := Resolved (JError (Some (VString "Rate limit exceeded"))) |}
           eq_refl eq_refl).
Defined.

(** X8 (witness): a registration that succeeds. *)
Lemma registerAgent_stores_agree_witness :
  exists privateKey stored,
    keychain (snd (register_with registry_up fresh)) = Some (toHex privateKey)
    /\ agentFile (snd (register_with registry_up fresh)) = Some stored
    /\ publicKey (identity stored) = toy_base64 (toy_public_key privateKey)
    /\ publicKey (identity stored) = "00000000"%string.
Proof.
  destruct (TAPRegistryMoreFacts.registerAgent_stores_agree registry_url counting_keys
              toy_public_key toy_base64 registry_up toy_sign new_year toy_number_text
              "0xAbC123" "0xwalletkey" "Clawd Agent" fresh
              (snd (register_with registry_up fresh))
              {| reg_agentId := "agent-00000000";
                 reg_verificationUrl := "https://tap-registry.visa.com/verify";
                 reg_keyId := "key-00000000"; reg_publicKey := "00000000" |}
              eq_refl)
    as (privateKey & stored & Hkey & Hagent & Hpublic & Hreturned & _).
  exists privateKey, stored. repeat split; assumption.
Defined.

(** *** Verification and reputation *)

(** X10 (witness): the registry declares the attestation valid. *)
Lemma verifyAgent_valid_only_if_registry_says_so_witness :
  exists response body,
    registry_up [] (verifyRequest registry_url "eip155:8453:0xabc123" "eyJ.kyc.sig")
      = Resolved response
    /\ ok response = true
    /\ json response = Resolved (JVerify body)
    /\ resp_valid body = true
    /\ Some kyc = identity_level body
    /\ Some 50 = reputation_score body.
Proof.
  exact (TAPRegistryMoreFacts.verifyAgent_valid_only_if_registry_says_so registry_url
           registry_up "eip155:8453:0xabc123" "eyJ.kyc.sig" fresh
           {| valid := true; ver_identityLevel := Some kyc;
              ver_reputationScore := Some 50; ver_error := None |}
           eq_refl eq_refl).
Defined.

(** X12 (witness): a fresh profile has no reputation and asks nobody. *)
Lemma getReputation_without_credentials_witness :
  getReputation registry_url registry_up "agent-00000000" fresh = (Resolved None, fresh).
Proof.
  exact (TAPRegistryMoreFacts.getReputation_without_credentials registry_url registry_up
           "agent-00000000" fresh (or_introl eq_refl)).
Defined.

(** X13 (witness): the reputation of a verified profile. *)
Lemma getReputation_some_witness :
  fst (getReputation registry_url registry_up "agent-00000000" verified_profile)
    = Resolved (Some {| totalTransactions := 0; uniqueMerchants := 0; disputeRate := 0;
                        reputationScore := 50 |})
  /\ PrimFloat.eqb 50 50 = true.
Proof.
  split; [reflexivity |].
  destruct (TAPRegistryMoreFacts.getReputation_some registry_url registry_up
              "agent-00000000" verified_profile
              {| totalTransactions := 0; uniqueMerchants := 0; disputeRate := 0;
                 reputationScore := 50 |} eq_refl) as (Hscore & _).
  exact Hscore.
Defined.

(** X14 (witness): an accepted completion on a fresh profile. *)
Lemma completeVerificationDemo_result_matches_store_witness :
  keychain (snd (complete_with registry_up fresh)) = None
  /\ agentFile (snd (complete_with registry_up fresh)) = None
  /\ exists attestation,
       attestationFile (snd (complete_with registry_up fresh)) = Some attestation
       /\ identityLevel attestation = kyc
       /\ issuer attestation = registry_url.
Proof.
  destruct (TAPRegistryMoreFacts.completeVerificationDemo_result_matches_store
              registry_url registry_up "agent-00000000" kyc fresh
              (snd (complete_with registry_up fresh))
              (Resolved (verified "agent-00000000" kyc 50)) eq_refl)
    as (Hkey & Hagent & _ & Hverified).
  split; [exact Hkey | split; [exact Hagent |]].
  destruct (Hverified "agent-00000000"%string kyc 50 eq_refl) as (_ & _ & Hstored).
  exact Hstored.
Defined.

(** *** The identity tool *)

(** X19 (witness): asking for [kyb] from a registry that issues [kyc]: the
    tool reports [kyb], the stored attestation says [kyc]. *)
Lemma verifyIdentity_now_verified_witness :
  fst (identify_with registry_up (Some kyb) fresh)
    = Resolved (MCPIdentity.NowVerified "agent-00000000" kyb 50
                  "Identity verified at KYB level. Premium merchants will now accept your payments.")
  /\ option_map identityLevel
       (attestationFile (snd (identify_with registry_up (Some kyb) fresh))) = Some kyc
  /\ kyb = MCPIdentity.level_or_kyc (Some kyb)
  /\ keychain (snd (identify_with registry_up (Some kyb) fresh))
     = Some (toHex (counting_keys 0)).
Proof.
  split; [reflexivity | split; [reflexivity |]].
  destruct (MCPIdentityFacts.verifyIdentity_now_verified registry_url counting_keys
              toy_public_key toy_base64 registry_up toy_sign new_year toy_number_text (Resolved tt)
              "0xAbC123" (Resolved "0xwalletkey"%string) toy_isVerified toy_getStatus
              {| MCPIdentity.arg_level := Some kyb; MCPIdentity.arg_name := None |}
              fresh "agent-00000000" kyb 50
              "Identity verified at KYB level. Premium merchants will now accept your payments."
              eq_refl)
    as (Hlevel & _ & Hkey & _).
  split; [exact Hlevel | exact Hkey].
Defined.

Example already_verified_profile_is_left_alone :
  identify_with registry_up None verified_profile
  = (Resolved (MCPIdentity.AlreadyVerified (Some "agent-00000000"%string) (Some kyc)
                 "Already verified at KYC level"),
     verified_profile).
Proof. reflexivity. Qed.

Example refused_registration_still_replaces_the_key :
  fst (identify_with registry_refusing None fresh)
    = Resolved (MCPIdentity.IdentityFailure "Wallet already registered")
  /\ keychain (snd (identify_with registry_refusing None fresh))
     = Some (toHex (counting_keys 0)).
Proof. split; reflexivity. Qed.

End MoreExamples.
